(** * Data-Governance-Console: the backend proxy / mutation layer

    A shallow embedding of [src/actions/userActions.ts] (the server actions
    every page calls) and of the [getUsers] copy kept in [lib/api.ts], with
    the part of the JavaScript runtime those functions rely on:

    - [Module JS]: numbers (IEEE binary64, as the kernel's primitive
      floats), [Number(string)], [Number::toString], truthiness, [||], [??],
      [>=], JSON values and [JSON.stringify], [encodeURIComponent];
    - [Module Effects]: promises, exceptions and the trace of observable
      effects ([fetch], [console], [revalidatePath], [redirect]);
    - [Module Types]: the parameter and result types of the actions;
    - [Module UserActions] and [Module LibApi]: the source functions;
    - the properties of the specification, stated on those definitions.

    Strings are byte strings; text outside ASCII is UTF-8 encoded. *)

From Stdlib Require Import ZArith String Ascii List Bool Lia.
From Stdlib Require Import DecimalString DecimalN.
From Stdlib Require Import PrimFloat FloatOps SpecFloat FloatAxioms.
Import ListNotations.

Local Open Scope string_scope.
Local Open Scope Z_scope.

(* ================================================================= *)
(** ** The JavaScript runtime used by the actions *)

Module JS.

(** *** Numbers

    A JavaScript number is a binary64 float.  The "Number value for" a
    rational [n / d] (ECMA-262, 6.1.6.1) is the nearest float, ties to the
    even mantissa; it is computed here on exact integers. *)

Definition number := float.
Bind Scope float_scope with number.

(** [n / (d * 2^e)] as a quotient, a remainder and the divisor used. *)
Definition scaled_quot (n d e : Z) : Z * Z * Z :=
  let N := if 0 <=? e then n else n * 2 ^ (- e) in
  let D := if 0 <=? e then d * 2 ^ e else d in
  (N / D, N mod D, D).

Definition round_half_even (q r D : Z) : Z :=
  if (D <? 2 * r) || ((D =? 2 * r) && Z.odd q) then q + 1 else q.

Definition signed_zero (neg : bool) : number :=
  if neg then neg_zero else zero.

Definition signed_infinity (neg : bool) : number :=
  if neg then neg_infinity else infinity.

(** The mantissa and exponent of the float nearest to [n / d], for [0 < n]
    and [0 < d]: the exponent [e] is the one that leaves 53 bits of
    quotient, or the least exponent [-1074]; a mantissa rounded up to
    [2^53] is [2^52] at the next exponent. *)
Definition nearest_mantissa (n d : Z) : Z * Z :=
  let e1 := Z.log2 n - Z.log2 d - 52 in
  let '(q1, _, _) := scaled_quot n d e1 in
  let e := Z.max (if 2 ^ 52 <=? q1 then e1 else e1 - 1) (-1074) in
  let '(q, r, D) := scaled_quot n d e in
  let m := round_half_even q r D in
  if m =? 2 ^ 53 then (2 ^ 52, e + 1) else (m, e).

(** The float nearest to [n / d], for [0 <= n] and [0 < d], with sign
    [neg]; beyond the largest exponent it is an infinity. *)
Definition nearest_float (neg : bool) (n d : Z) : number :=
  if n <=? 0 then signed_zero neg else
  let '(m, e) := nearest_mantissa n d in
  if 971 <? e then signed_infinity neg else
  match m with
  | Zpos p => SF2Prim (S754_finite neg p e)
  | _ => signed_zero neg
  end.

(** [m * 10^p] as a fraction of integers. *)
Definition decimal_ratio (m p : Z) : Z * Z :=
  if 0 <=? p then (m * 10 ^ p, 1) else (m, 10 ^ (- p)).

Definition float_of_decimal (neg : bool) (m p : Z) : number :=
  let '(n, d) := decimal_ratio m p in nearest_float neg n d.

Definition of_Z (z : Z) : number := nearest_float (z <? 0) (Z.abs z) 1.

(** *** Characters and white space *)

Definition byte_of (c : ascii) : Z := Z.of_N (N_of_ascii c).

Definition is_digit (c : ascii) : bool :=
  (48 <=? byte_of c) && (byte_of c <=? 57).

Definition digit_value (c : ascii) : Z := byte_of c - 48.

(** Value of a digit of radix up to 16, [None] for any other character. *)
Definition hex_value (c : ascii) : option Z :=
  let b := byte_of c in
  if (48 <=? b) && (b <=? 57) then Some (b - 48)
  else if (97 <=? b) && (b <=? 102) then Some (b - 87)
  else if (65 <=? b) && (b <=? 70) then Some (b - 55)
  else None.

(** StrWhiteSpaceChar: TAB, LF, VT, FF, CR, SP in one byte; U+00A0 in two;
    U+1680, U+2000..U+200A, U+2028, U+2029, U+202F, U+205F, U+3000 and
    U+FEFF in three. *)
Definition ws1 (c : ascii) : bool :=
  let b := byte_of c in ((9 <=? b) && (b <=? 13)) || (b =? 32).

Definition ws2 (c1 c2 : ascii) : bool :=
  (byte_of c1 =? 194) && (byte_of c2 =? 160).

Definition ws3 (c1 c2 c3 : ascii) : bool :=
  let a := byte_of c1 in
  let b := byte_of c2 in
  let c := byte_of c3 in
  ((a =? 225) && (b =? 154) && (c =? 128))
  || ((a =? 226) && (b =? 128)
      && (((128 <=? c) && (c <=? 138)) || (c =? 168) || (c =? 169)
          || (c =? 175)))
  || ((a =? 226) && (b =? 129) && (c =? 159))
  || ((a =? 227) && (b =? 128) && (c =? 128))
  || ((a =? 239) && (b =? 187) && (c =? 191)).

Fixpoint trim_start (s : string) : string :=
  match s with
  | String c1 r1 =>
      if ws1 c1 then trim_start r1 else
      match r1 with
      | String c2 r2 =>
          if ws2 c1 c2 then trim_start r2 else
          match r2 with
          | String c3 r3 => if ws3 c1 c2 c3 then trim_start r3 else s
          | EmptyString => s
          end
      | EmptyString => s
      end
  | EmptyString => s
  end.

Definition is_empty (s : string) : bool :=
  match s with EmptyString => true | String _ _ => false end.

Definition all_white_space (s : string) : bool := is_empty (trim_start s).

(** *** [Number(string)]: StringToNumber (ECMA-262, 7.1.4.1.1) *)

(** The longest prefix of decimal digits, read as an integer, its length,
    and what follows it. *)
Fixpoint read_digits (acc len : Z) (s : string) : Z * Z * string :=
  match s with
  | String c r =>
      if is_digit c then read_digits (10 * acc + digit_value c) (len + 1) r
      else (acc, len, s)
  | EmptyString => (acc, len, s)
  end.

(** A sign, when one is there: whether it is [-], and what follows it. *)
Definition read_sign (s : string) : bool * string :=
  match s with
  | String c r =>
      if byte_of c =? 45 then (true, r)
      else if byte_of c =? 43 then (false, r)
      else (false, s)
  | EmptyString => (false, s)
  end.

(** ExponentPart, when one is there: [e] or [E], a sign, at least one digit. *)
Definition read_exponent (s : string) : Z * string :=
  match s with
  | String c r =>
      if (byte_of c =? 101) || (byte_of c =? 69) then
        let '(neg, r1) := read_sign r in
        let '(x, len, r2) := read_digits 0 0 r1 in
        if len =? 0 then (0, s) else ((if neg then - x else x), r2)
      else (0, s)
  | EmptyString => (0, s)
  end.

(** StrUnsignedDecimalLiteral: the number read and the rest of the string. *)
Definition read_unsigned_decimal (neg : bool) (s : string)
  : option (number * string) :=
  if String.prefix "Infinity" s then
    Some (signed_infinity neg, String.substring 8 (String.length s - 8) s)
  else
    let '(ip, ilen, r1) := read_digits 0 0 s in
    let '(m, flen, r2) :=
      match r1 with
      | String c r' =>
          if byte_of c =? 46 then
            let '(m, len, r'') := read_digits ip ilen r' in
            (m, len - ilen, r'')
          else (ip, 0, r1)
      | EmptyString => (ip, 0, r1)
      end in
    if (ilen =? 0) && (flen =? 0) then None
    else
      let '(x, r3) := read_exponent r2 in
      Some (float_of_decimal neg m (x - flen), r3).

(** An integer in radix [radix], all of [s]; [None] when [s] is empty or
    holds another character. *)
Fixpoint read_radix (radix acc : Z) (seen : bool) (s : string) : option Z :=
  match s with
  | String c r =>
      match hex_value c with
      | Some d => if d <? radix then read_radix radix (radix * acc + d) true r
                  else None
      | None => None
      end
  | EmptyString => if seen then Some acc else None
  end.

Fixpoint trim_end_fuel (fuel : nat) (s : string) : string :=
  match fuel with
  | O => s
  | S f =>
      match s with
      | EmptyString => s
      | String c r =>
          if all_white_space s then EmptyString
          else String c (trim_end_fuel f r)
      end
  end.

(** The string without the white space at its two ends. *)
Definition trim (s : string) : string :=
  let t := trim_start s in trim_end_fuel (String.length t) t.

Definition radix_prefix (s : string) : option (Z * string) :=
  match s with
  | String c0 (String c r) =>
      let b := byte_of c in
      if negb (byte_of c0 =? 48) then None
      else if (b =? 120) || (b =? 88) then Some (16, r)
      else if (b =? 111) || (b =? 79) then Some (8, r)
      else if (b =? 98) || (b =? 66) then Some (2, r)
      else None
  | _ => None
  end.

Definition StringToNumber (s : string) : number :=
  let t := trim s in
  if is_empty t then zero else
  match radix_prefix t with
  | Some (radix, r) =>
      match read_radix radix 0 false r with
      | Some z => of_Z z
      | None => nan
      end
  | None =>
      let '(neg, u) := read_sign t in
      match read_unsigned_decimal neg u with
      | Some (x, rest) => if is_empty rest then x else nan
      | None => nan
      end
  end.

(** [Number(v)] for the one type the actions pass: a string or [undefined]. *)
Definition Number (v : option string) : number :=
  match v with
  | None => nan
  | Some s => StringToNumber s
  end.

(** *** [Number::toString] (ECMA-262, 6.1.6.1.20), radix 10

    For a finite [x > 0] the digits are those of the integer [s] with the
    fewest digits [k] such that [s * 10^(n-k)] has [x] as its Number value,
    the closest to [x] when two qualify. *)

(** [N / D < 10^n] *)
Definition lt_pow10 (N D n : Z) : bool :=
  if 0 <=? n then N <? D * 10 ^ n else N * 10 ^ (- n) <? D.

Fixpoint first_pow10_above (fuel : nat) (N D n : Z) : Z :=
  match fuel with
  | O => n
  | S f => if lt_pow10 N D n then n else first_pow10_above f N D (n + 1)
  end.

(** The [n] with [10^(n-1) <= N / D < 10^n]; the search starts below it,
    from an estimate by binary logarithms. *)
Definition decimal_exponent (N D : Z) : Z :=
  first_pow10_above 8 N D ((Z.log2 N - Z.log2 D) * 1233 / 4096 - 2).

(** The two [k]-digit neighbours of [N / D], the one chosen and whether it
    reads back as [x]. *)
Definition digits_with (x : number) (N D n k : Z) : Z * Z * bool :=
  let p := n - k in
  let '(A, B) := if 0 <=? p then (N, D * 10 ^ p) else (N * 10 ^ (- p), D) in
  let lo := A / B in
  let r := A mod B in
  let hi := lo + 1 in
  let back s := PrimFloat.eqb (float_of_decimal false s p) x in
  let lower := (2 * r <? B) || ((2 * r =? B) && Z.even lo) in
  let s := if back lo then (if back hi then (if lower then lo else hi) else lo)
           else hi in
  let found := back lo || back hi in
  if s =? 10 ^ k then (10 ^ (k - 1), n + 1, found) else (s, n, found).

Fixpoint shortest_digits (fuel : nat) (x : number) (N D n k : Z) : Z * Z :=
  let '(s, n', found) := digits_with x N D n k in
  match fuel with
  | O => (s, n')
  | S f => if found then (s, n') else shortest_digits f x N D n (k + 1)
  end.

Definition decimal (z : Z) : string :=
  NilZero.string_of_uint (N.to_uint (Z.to_N z)).

Definition zeros (n : Z) : string :=
  String.concat "" (repeat "0" (Z.to_nat n)).

Definition positive_toString (x : number) (m : positive) (e : Z) : string :=
  let '(N, D) := if 0 <=? e then (Zpos m * 2 ^ e, 1) else (Zpos m, 2 ^ (- e)) in
  let '(s, n) := shortest_digits 16 x N D (decimal_exponent N D) 1 in
  let ds := decimal s in
  let k := Z.of_nat (String.length ds) in
  let head i := String.substring 0 (Z.to_nat i) ds in
  let tail i := String.substring (Z.to_nat i) (Z.to_nat (k - i)) ds in
  if (k <=? n) && (n <=? 21) then ds ++ zeros (n - k)
  else if (0 <? n) && (n <=? 21) then head n ++ "." ++ tail n
  else if (-6 <? n) && (n <=? 0) then "0." ++ zeros (- n) ++ ds
  else
    let ex := (if 0 <=? n - 1 then "+" else "-") ++ decimal (Z.abs (n - 1)) in
    if k =? 1 then ds ++ "e" ++ ex
    else head 1 ++ "." ++ tail 1 ++ "e" ++ ex.

Definition Number_toString (x : number) : string :=
  match Prim2SF x with
  | S754_nan => "NaN"
  | S754_zero _ => "0"
  | S754_infinity neg => if neg then "-Infinity" else "Infinity"
  | S754_finite neg m e =>
      (if neg then "-" else "") ++ positive_toString (PrimFloat.abs x) m e
  end.

(** *** Values

    What [JSON.parse] builds, and [undefined] for what is not there.  An
    object is the list of its own properties in insertion order. *)

#[warnings="-register-all"]
Inductive value : Type :=
| VUndefined
| VNull
| VBool (b : bool)
| VNum (x : number)
| VStr (s : string)
| VArr (elems : list value)
| VObj (fields : list (string * value)).

(** ToBoolean *)
Definition truthy_number (x : number) : bool :=
  negb (PrimFloat.is_nan x || PrimFloat.is_zero x).

Definition truthy (v : value) : bool :=
  match v with
  | VUndefined | VNull => false
  | VBool b => b
  | VNum x => truthy_number x
  | VStr s => negb (is_empty s)
  | VArr _ | VObj _ => true
  end.

(** [a || b] *)
Definition or_else (a b : value) : value := if truthy a then a else b.

(** [x || y] on numbers *)
Definition or_number (x y : number) : number :=
  if truthy_number x then x else y.

Definition nullish (v : value) : bool :=
  match v with VUndefined | VNull => true | _ => false end.

(** [a ?? b] *)
Definition coalesce (a b : value) : value := if nullish a then b else a.

(** ToString; an array joins its elements with commas, [null] and
    [undefined] elements as empty strings. *)
Fixpoint ToString (v : value) : string :=
  match v with
  | VUndefined => "undefined"
  | VNull => "null"
  | VBool b => if b then "true" else "false"
  | VNum x => Number_toString x
  | VStr s => s
  | VArr l =>
      String.concat ","
        (map (fun e => if nullish e then "" else ToString e) l)
  | VObj _ => "[object Object]"
  end.

(** ToNumber; an array or object goes through its string. *)
Definition ToNumber (v : value) : number :=
  match v with
  | VUndefined => nan
  | VNull => zero
  | VBool b => if b then one else zero
  | VNum x => x
  | VStr s => StringToNumber s
  | VArr _ | VObj _ => StringToNumber (ToString v)
  end.

(** [x >= v] with a number on the left: the right operand is converted to a
    number, and a NaN on either side makes the comparison false. *)
Definition ge_number (x : number) (v : value) : bool :=
  PrimFloat.leb (ToNumber v) x.

(** [x === y] on numbers *)
Definition strict_eq_number (x y : number) : bool := PrimFloat.eqb x y.

(** Own property lookup.  None of the names the actions read ([content],
    [totalPages], [first], [last], [number], [error]) is defined on a
    built-in prototype, so a read on a string, number, boolean or array
    yields [undefined] as it does on an object without the property. *)
Fixpoint lookup (k : string) (fields : list (string * value)) : value :=
  match fields with
  | [] => VUndefined
  | (k', v) :: rest => if String.eqb k k' then v else lookup k rest
  end.

(** [v.k] for a [v] that is neither [null] nor [undefined]. *)
Definition field (v : value) (k : string) : value :=
  match v with
  | VObj fields => lookup k fields
  | _ => VUndefined
  end.

(** *** [JSON.stringify] (no replacer, no indentation) *)

Definition dquote : string := String (ascii_of_nat 34) EmptyString.
Definition backslash : string := String (ascii_of_nat 92) EmptyString.

Definition hex_digit (upper : bool) (d : Z) : string :=
  let b := if d <? 10 then 48 + d else (if upper then 55 else 87) + d in
  String (ascii_of_N (Z.to_N b)) EmptyString.

Definition escape_char (c : ascii) : string :=
  let b := byte_of c in
  if b =? 34 then backslash ++ dquote
  else if b =? 92 then backslash ++ backslash
  else if b =? 8 then backslash ++ "b"
  else if b =? 9 then backslash ++ "t"
  else if b =? 10 then backslash ++ "n"
  else if b =? 12 then backslash ++ "f"
  else if b =? 13 then backslash ++ "r"
  else if b <? 32 then
    backslash ++ "u00" ++ hex_digit false (b / 16) ++ hex_digit false (b mod 16)
  else String c EmptyString.

Fixpoint escape (s : string) : string :=
  match s with
  | EmptyString => EmptyString
  | String c r => escape_char c ++ escape r
  end.

(** QuoteJSONString *)
Definition quote (s : string) : string := dquote ++ escape s ++ dquote.

(** [None] is the [undefined] that [JSON.stringify(undefined)] returns; an
    [undefined] property is left out, an [undefined] element printed [null]. *)
Fixpoint JSON_stringify (v : value) : option string :=
  match v with
  | VUndefined => None
  | VNull => Some "null"
  | VBool b => Some (if b then "true" else "false")
  | VNum x =>
      Some (if PrimFloat.is_finite x then Number_toString x else "null")
  | VStr s => Some (quote s)
  | VArr l =>
      Some ("[" ++ String.concat ","
                     (map (fun e => match JSON_stringify e with
                                    | Some t => t
                                    | None => "null"
                                    end) l) ++ "]")
  | VObj fs =>
      Some ("{" ++ String.concat ","
                     (flat_map (fun p => match JSON_stringify (snd p) with
                                         | Some t => [quote (fst p) ++ ":" ++ t]
                                         | None => []
                                         end) fs) ++ "}")
  end.

(** The body of a request, as the [body:] of a [fetch] takes it. *)
Definition stringify (v : value) : string :=
  match JSON_stringify v with Some t => t | None => "undefined" end.

(** *** [encodeURIComponent], on the UTF-8 bytes of the string *)

Definition unreserved (c : ascii) : bool :=
  let b := byte_of c in
  ((65 <=? b) && (b <=? 90)) || ((97 <=? b) && (b <=? 122))
  || ((48 <=? b) && (b <=? 57))
  || existsb (Z.eqb b) [45; 95; 46; 33; 126; 42; 39; 40; 41].

Fixpoint encodeURIComponent (s : string) : string :=
  match s with
  | EmptyString => EmptyString
  | String c r =>
      (if unreserved c then String c EmptyString
       else "%" ++ hex_digit true (byte_of c / 16)
                ++ hex_digit true (byte_of c mod 16))
      ++ encodeURIComponent r
  end.

End JS.

(* ================================================================= *)
(** ** Promises, exceptions and observable effects *)

Module Effects.
Import JS.

(** What can be thrown: [new Error(message)], the runtime's [TypeError] and
    [SyntaxError], and the [NEXT_REDIRECT] error that [redirect] throws. *)
Inductive exn : Type :=
| Error (message : string)
| TypeError (message : string)
| SyntaxError (message : string)
| NextRedirect (url : string).

(** A promise, by the state it settles to. *)
Inductive promise (A : Type) : Type :=
| Fulfilled (a : A)
| Rejected (e : exn).
Arguments Fulfilled {A} a.
Arguments Rejected {A} e.

(** The second argument of [fetch]. *)
Record RequestInit : Type := {
  method : option string;
  headers : list (string * string);
  body : option string;
  cache : option string;
  next_revalidate : option number
}.

(** A [Response] as the actions see it: [text] and [json] are what
    [res.text()] and [res.json()] settle to ([json] rejects when the body
    is not JSON). *)
Record Response : Type := {
  ok : bool;
  status : number;
  statusText : string;
  text : promise string;
  json : promise value
}.

Inductive logged : Type :=
| LStr (s : string)
| LNum (x : number)
| LExn (e : exn).

Inductive event : Type :=
| Fetch (url : string) (init : RequestInit)
| ConsoleLog (args : list logged)
| ConsoleError (args : list logged)
| RevalidatePath (path : string)
| Redirect (url : string).

(** The world outside: what [fetch(url, init)] settles to, a rejection when
    the request itself fails. *)
Definition World : Type := string -> RequestInit -> promise Response.

(** A call of an async function: the effects it performs, in order, and how
    the promise it returns settles. *)
Definition Action (A : Type) : Type := World -> list event * promise A.

Definition ret {A} (a : A) : Action A := fun _ => ([], Fulfilled a).

Definition throw {A} (e : exn) : Action A := fun _ => ([], Rejected e).

Definition bind {A B} (m : Action A) (k : A -> Action B) : Action B :=
  fun w =>
    match m w with
    | (t1, Fulfilled a) => let '(t2, r) := k a w in ((t1 ++ t2)%list, r)
    | (t1, Rejected e) => (t1, Rejected e)
    end.

(** [try { block } catch (e) { handler }] *)
Definition try_catch {A} (block : Action A) (handler : exn -> Action A)
  : Action A :=
  fun w =>
    match block w with
    | (t1, Fulfilled a) => (t1, Fulfilled a)
    | (t1, Rejected e) => let '(t2, r) := handler e w in ((t1 ++ t2)%list, r)
    end.

Definition emit (ev : event) : Action unit := fun _ => ([ev], Fulfilled tt).

(** [await p]: the value of a fulfilled promise, the reason of a rejected
    one thrown where the [await] stands. *)
Definition await {A} (p : Action (promise A)) : Action A :=
  fun w =>
    match p w with
    | (t, Fulfilled q) => (t, q)
    | (t, Rejected e) => (t, Rejected e)
    end.

(** [return v] in a body closed by [async]. *)
Definition return_ {A} (a : A) : Action (promise A) := ret (Fulfilled a).

(** The promise of an async function adopts a promise that its body
    returns.  A promise returned from inside a [try] block without [await]
    has left the block when it rejects: the [catch] does not see it. *)
Definition async {A} (body : Action (promise A)) : Action A := await body.

Definition fetch (url : string) (init : RequestInit)
  : Action (promise Response) :=
  fun w => ([Fetch url init], Fulfilled (w url init)).

Definition res_json (res : Response) : Action (promise value) :=
  ret (json res).

Definition res_text (res : Response) : Action (promise string) :=
  ret (text res).

Definition console_log (args : list logged) : Action unit :=
  emit (ConsoleLog args).

Definition console_error (args : list logged) : Action unit :=
  emit (ConsoleError args).

(** [next/cache] *)
Definition revalidatePath (path : string) : Action unit :=
  emit (RevalidatePath path).

(** [next/navigation]: [redirect] never returns, it throws. *)
Definition redirect {A} (url : string) : Action A :=
  fun _ => ([Redirect url], Rejected (NextRedirect url)).

(** [v.k]: a read on [null] or [undefined] throws. *)
Definition get (v : value) (k : string) : Action value :=
  match v with
  | VNull =>
      throw (TypeError
               ("Cannot read properties of null (reading '" ++ k ++ "')"))
  | VUndefined =>
      throw (TypeError
               ("Cannot read properties of undefined (reading '" ++ k ++ "')"))
  | _ => ret (field v k)
  end.

Declare Scope action_scope.
Delimit Scope action_scope with action.
Bind Scope action_scope with Action.

Notation "x <- m ;; k" := (bind m (fun x => k))
  (at level 100, m at next level, right associativity) : action_scope.
Notation "m ;; k" := (bind m (fun _ => k))
  (at level 100, right associativity) : action_scope.

(** *** Observations on a call *)

Definition effects {A} (a : Action A) (w : World) : list event := fst (a w).

Definition outcome {A} (a : Action A) (w : World) : promise A := snd (a w).

Definition fetches (t : list event) : list (string * RequestInit) :=
  flat_map (fun ev => match ev with Fetch u i => [(u, i)] | _ => [] end) t.

Definition revalidated (t : list event) : list string :=
  flat_map (fun ev => match ev with RevalidatePath p => [p] | _ => [] end) t.

Definition redirects (t : list event) : list string :=
  flat_map (fun ev => match ev with Redirect u => [u] | _ => [] end) t.

(** What the world answered to the requests of a trace, in order. *)
Definition replies (w : World) (t : list event) : list (promise Response) :=
  map (fun r => w (fst r) (snd r)) (fetches t).

(** The call sent one request and the backend answered it with [res]. *)
Definition answered {A} (a : Action A) (w : World) (res : Response) : Prop :=
  replies w (effects a w) = [Fulfilled res].

(** The call sent one request and the request itself failed: [fetch]
    rejected. *)
Definition request_failed {A} (a : Action A) (w : World) : Prop :=
  exists e, replies w (effects a w) = [Rejected e].

(** The request failed or the backend answered it with a status that is
    not OK. *)
Definition failed {A} (a : Action A) (w : World) : Prop :=
  request_failed a w \/ exists res, answered a w res /\ ok res = false.

(** Worlds for examples, after the mocks of the test suite. *)
Definition mockResolvedValue (res : Response) : World :=
  fun _ _ => Fulfilled res.

Definition mockRejectedValue (e : exn) : World :=
  fun _ _ => Rejected e.

(** A 200 response with a JSON body. *)
Definition ok_json (v : value) : Response :=
  {| ok := true; status := 200; statusText := "OK";
     text := Fulfilled (stringify v); json := Fulfilled v |}.

(** A 200 response whose body is not JSON: here the empty body. *)
Definition ok_empty_body : Response :=
  {| ok := true; status := 200; statusText := "OK";
     text := Fulfilled "";
     json := Rejected (SyntaxError "Unexpected end of JSON input") |}.

(** A response with a status that is not OK. *)
Definition not_ok (code : number) (msg : string) : Response :=
  {| ok := false; status := code; statusText := msg;
     text := Fulfilled msg;
     json := Rejected (SyntaxError "Unexpected token") |}.

End Effects.

(* ================================================================= *)
(** ** Types shared by the two source modules *)

Module Types.
Import JS.

(** [{ page?: string }] *)
Record SearchParams : Type := { page : option string }.

(** The object [getUsers] returns. *)
Record UsersPage : Type := {
  users : value;
  totalPages : value;
  isFirst : value;
  isLast : value;
  pageNumber : value;
  size : value
}.

(** ["ACTIVE" | "INACTIVE"] *)
Inductive Status : Type := ACTIVE | INACTIVE.

Definition Status_string (s : Status) : string :=
  match s with ACTIVE => "ACTIVE" | INACTIVE => "INACTIVE" end.

(** A [FormData] with text entries, in the order they were appended. *)
Definition FormData : Type := list (string * string).

(** [formData.get(name)]: the first entry of that name, or [null]. *)
Fixpoint FormData_get (formData : FormData) (name : string) : value :=
  match formData with
  | [] => VNull
  | (k, v) :: rest =>
      if String.eqb k name then VStr v else FormData_get rest name
  end.

(** [formData.getAll(name)] *)
Definition FormData_getAll (formData : FormData) (name : string) : value :=
  VArr (map (fun e => VStr (snd e))
            (filter (fun e => String.eqb (fst e) name) formData)).

(** The object [addUser] returns: [{ success: true }] or
    [{ success: false, error }]. *)
Record AddUserResult : Type := {
  success : bool;
  error : option string
}.

Definition json_headers : list (string * string) :=
  [("Content-Type", "application/json")].

End Types.

(* ================================================================= *)
(** ** [src/actions/userActions.ts] *)

Module UserActions.
Import JS Effects Types.
Local Open Scope action_scope.

Section Actions.

(** [process.env.BASE_URL], [None] when the variable is not set. *)
Variable process_env_BASE_URL : option string.

Definition BASE_URL : string :=
  match process_env_BASE_URL with
  | Some s => if truthy (VStr s) then s else "http://localhost:8080"
  | None => "http://localhost:8080"
  end.

Definition getAllUsers : Action value :=
  async (
    res <- await (fetch (BASE_URL ++ "/api/v1/users")
                    {| method := None; headers := []; body := None;
                       cache := Some "no-store"; next_revalidate := None |}) ;;
    if negb (ok res) then throw (Error "Failed to fetch all users")
    else res_json res).

(** The first two lines of [getUsers]: the page index it asks for. *)
Definition currentPage (searchParams : option SearchParams) : number :=
  let pageParam :=
    page (match searchParams with
          | Some sp => sp
          | None => {| page := Some "0" |}
          end) in
  or_number (Number pageParam) 0.

Definition getUsers (searchParams : option SearchParams) : Action UsersPage :=
  let currentPage := currentPage searchParams in
  let size := 5%float in
  res <- await (fetch (BASE_URL ++ "/api/v1/users?page="
                         ++ Number_toString currentPage
                         ++ "&size=" ++ Number_toString size)
                  {| method := None; headers := []; body := None;
                     cache := None; next_revalidate := Some 30%float |}) ;;
  if negb (ok res) then
    console_error [LStr "❌ Failed to fetch users:"; LNum (status res);
                   LStr (statusText res)] ;;
    throw (Error "Failed to fetch users")
  else
    data <- await (res_json res) ;;
    content <- get data "content" ;;
    totalPages1 <- get data "totalPages" ;;
    first <- get data "first" ;;
    last <- get data "last" ;;
    totalPages2 <- get data "totalPages" ;;
    number <- get data "number" ;;
    ret {| users := or_else content (VArr []);
           totalPages := coalesce totalPages1 (VNum 1);
           isFirst := coalesce first (VBool (strict_eq_number currentPage 0));
           isLast :=
             coalesce last
               (VBool (ge_number (currentPage + 1)
                         (coalesce totalPages2 (VNum 1))));
           pageNumber := coalesce number (VNum currentPage);
           size := VNum size |}.

Definition deleteUserFromHome (id : string) : Action unit :=
  if negb (truthy (VStr id)) then throw (Error "User ID required") else
  res <- await (fetch (BASE_URL ++ "/api/v1/users/" ++ id)
                  {| method := Some "DELETE"; headers := json_headers;
                     body := None; cache := None;
                     next_revalidate := None |}) ;;
  if negb (ok res) then
    msg <- await (res_text res) ;;
    console_error [LStr "❌ Failed to delete user:"; LNum (status res);
                   LStr msg] ;;
    throw (Error ("Delete failed (" ++ Number_toString (status res) ++ ")"))
  else
    revalidatePath "/users".

Definition deleteUser (id : string) : Action unit :=
  if negb (truthy (VStr id)) then throw (Error "User ID required") else
  res <- await (fetch (BASE_URL ++ "/api/v1/users/" ++ id)
                  {| method := Some "DELETE"; headers := json_headers;
                     body := None; cache := None;
                     next_revalidate := None |}) ;;
  if negb (ok res) then
    msg <- await (res_text res) ;;
    console_error [LStr "❌ Failed to delete user:"; LNum (status res);
                   LStr msg] ;;
    throw (Error ("Delete failed (" ++ Number_toString (status res) ++ ")"))
  else
    revalidatePath "/users" ;;
    redirect "/users?page=0".

Definition getUserById (id : string) : Action value :=
  async (
    try_catch (
      res <- await (fetch (BASE_URL ++ "/api/v1/users/" ++ id)
                      {| method := None; headers := []; body := None;
                         cache := Some "no-store";
                         next_revalidate := None |}) ;;
      if negb (ok res) then return_ VNull
      else res_json res
    ) (fun e =>
      console_error [LStr "❌ Failed to fetch user info:"; LExn e] ;;
      return_ VNull)).

Definition getUserPreferences (id : string) : Action value :=
  try_catch (
    res <- await (fetch (BASE_URL ++ "/api/v1/users/" ++ id ++ "/preferences")
                    {| method := None; headers := []; body := None;
                       cache := Some "no-store";
                       next_revalidate := None |}) ;;
    if negb (ok res) then ret VNull
    else
      data <- await (res_json res) ;;
      err <- get data "error" ;;
      if truthy err then ret VNull
      else ret data
  ) (fun e =>
    console_error [LStr "⚠️ No preferences found:"; LExn e] ;;
    ret VNull).

Definition getUserPosts (id : string) : Action value :=
  async (
    try_catch (
      res <- await (fetch (BASE_URL ++ "/api/v1/users/" ++ id ++ "/posts")
                      {| method := None; headers := []; body := None;
                         cache := Some "no-store";
                         next_revalidate := None |}) ;;
      if negb (ok res) then return_ (VArr [])
      else res_json res
    ) (fun e =>
      console_error [LStr "⚠️ No posts found:"; LExn e] ;;
      return_ (VArr []))).

Definition addUser (formData : FormData) : Action AddUserResult :=
  let username := FormData_get formData "username" in
  let email := FormData_get formData "email" in
  let name := FormData_get formData "name" in
  let roles := FormData_getAll formData "roles" in
  try_catch (
    res <- await (fetch (BASE_URL ++ "/api/v1/users")
                    {| method := Some "POST"; headers := json_headers;
                       body := Some (stringify
                                       (VObj [("username", username);
                                              ("email", email);
                                              ("name", name);
                                              ("roles", roles);
                                              ("status", VStr "ACTIVE")]));
                       cache := None; next_revalidate := None |}) ;;
    if negb (ok res) then
      throw (Error ("Failed to add user (" ++ Number_toString (status res)
                      ++ ")"))
    else
      revalidatePath "/users" ;;
      ret {| success := true; error := None |}
  ) (fun err =>
    console_error [LStr "❌ Error adding user:"; LExn err] ;;
    ret {| success := false; error := Some "Failed to add user" |}).

Definition addUserAction (formData : FormData) : Action unit :=
  result <- addUser formData ;;
  if success result then redirect "/users/add?success=true"
  else
    redirect ("/users/add?error="
                ++ encodeURIComponent
                     (match error result with
                      | Some e => e
                      | None => "Unknown error"
                      end)).

Definition toggleUserStatus (id : string) (status : Status) : Action value :=
  async (
    console_log [LStr "Toggling user status:"; LStr id;
                 LStr (Status_string status)] ;;
    res <- await (fetch (BASE_URL ++ "/api/v1/users/" ++ id)
                    {| method := Some "PATCH"; headers := json_headers;
                       body := Some (stringify
                                       (VObj [("status",
                                               VStr (Status_string status))]));
                       cache := None; next_revalidate := None |}) ;;
    if negb (ok res) then
      errText <- await (res_text res) ;;
      throw (Error ("Failed to update status: " ++ errText))
    else
      revalidatePath "/users" ;;
      res_json res).

Definition createUserPost (userId title content : string) : Action bool :=
  try_catch (
    res <- await (fetch (BASE_URL ++ "/api/v1/users/" ++ userId ++ "/posts")
                    {| method := Some "POST"; headers := json_headers;
                       body := Some (stringify
                                       (VObj [("title", VStr title);
                                              ("content", VStr content)]));
                       cache := None; next_revalidate := None |}) ;;
    if negb (ok res) then
      t <- await (res_text res) ;;
      console_error [LStr "❌ Failed to create post:"; LStr t] ;;
      throw (Error "Failed to create post")
    else
      revalidatePath ("/users/" ++ userId) ;;
      ret true
  ) (fun e =>
    console_error [LStr "⚠️ createUserPost error:"; LExn e] ;;
    throw e).

Definition softDeletePost (postId : string) : Action bool :=
  res <- await (fetch (BASE_URL ++ "/api/v1/posts/" ++ postId)
                  {| method := Some "DELETE"; headers := []; body := None;
                     cache := None; next_revalidate := None |}) ;;
  if negb (ok res) then
    throw (Error ("Failed to delete post (" ++ Number_toString (status res)
                    ++ ")"))
  else
    revalidatePath "/users/" ;;
    ret true.

Definition createDefaultPreferences (userId : string) : Action value :=
  res <- await (fetch (BASE_URL ++ "/api/v1/users/" ++ userId ++ "/preferences")
                  {| method := Some "PUT"; headers := json_headers;
                     body := Some (stringify
                                     (VObj [("theme", VStr "light");
                                            ("language", VStr "en");
                                            ("notificationsEnabled",
                                             VBool true)]));
                     cache := None; next_revalidate := None |}) ;;
  if negb (ok res) then
    throw (Error ("Failed to create default preferences ("
                    ++ Number_toString (status res) ++ ")"))
  else
    revalidatePath ("/users/" ++ userId) ;;
    await (res_json res).

End Actions.

End UserActions.

(* ================================================================= *)
(** ** [lib/api.ts]: the second copy of [getUsers] *)

Module LibApi.
Import JS Effects Types.
Local Open Scope action_scope.

Section Api.

Variable process_env_BASE_URL : option string.

Definition BASE_URL : string :=
  match process_env_BASE_URL with
  | Some s => if truthy (VStr s) then s else "http://localhost:8080"
  | None => "http://localhost:8080"
  end.

(** The first two lines of this copy: no fallback after [Number]. *)
Definition currentPage (searchParams : option SearchParams) : number :=
  let pageParam :=
    page (match searchParams with
          | Some sp => sp
          | None => {| page := Some "0" |}
          end) in
  Number pageParam.

Definition getUsers (searchParams : option SearchParams) : Action UsersPage :=
  let currentPage := currentPage searchParams in
  let size := 5%float in
  res <- await (fetch (BASE_URL ++ "/api/v1/users?page="
                         ++ Number_toString currentPage
                         ++ "&size=" ++ Number_toString size)
                  {| method := None; headers := []; body := None;
                     cache := None; next_revalidate := Some 30%float |}) ;;
  if negb (ok res) then
    console_error [LStr "❌ Failed to fetch users:"; LNum (status res);
                   LStr (statusText res)] ;;
    throw (Error "Failed to fetch users")
  else
    data <- await (res_json res) ;;
    content <- get data "content" ;;
    totalPages1 <- get data "totalPages" ;;
    first <- get data "first" ;;
    last <- get data "last" ;;
    totalPages2 <- get data "totalPages" ;;
    number <- get data "number" ;;
    ret {| users := or_else content (VArr []);
           totalPages := coalesce totalPages1 (VNum 1);
           isFirst := coalesce first (VBool (strict_eq_number currentPage 0));
           isLast :=
             coalesce last
               (VBool (ge_number (currentPage + 1)
                         (coalesce totalPages2 (VNum 1))));
           pageNumber := coalesce number (VNum currentPage);
           size := VNum size |}.

End Api.

End LibApi.

(* ================================================================= *)
(** ** The server actions written inline in the pages

    [app/users/add/page.tsx] (the first [AddUserPage]) and the two copies
    of [app/users/[id]/page.tsx] pass closures to their forms.  The [id] of
    the detail page is the route parameter, a string; [user] is what
    [getUserById] returned, any value. *)

Module Pages.
Import JS Effects Types.
Local Open Scope action_scope.

(** [v === s] for a string [s]: without conversion, only a string is equal
    to a string. *)
Definition strict_eq_string (v : value) (s : string) : bool :=
  match v with
  | VStr t => String.eqb t s
  | _ => false
  end.

(** [formData.get(name)] of a form with text entries: the text of the
    first entry of that name, [None] for the [null] of a missing one. *)
Fixpoint FormData_text (formData : FormData) (name : string)
  : option string :=
  match formData with
  | [] => None
  | (k, v) :: rest =>
      if String.eqb k name then Some v else FormData_text rest name
  end.

Section Pages.

Variable process_env_BASE_URL : option string.

(** [async (formData) => { await addUser(formData); }] *)
Definition AddUserPage_action (formData : FormData) : Action unit :=
  UserActions.addUser process_env_BASE_URL formData ;;
  ret tt.

(** [async () => { await toggleUserStatus(id, user.status === "ACTIVE" ?
    "INACTIVE" : "ACTIVE"); }] *)
Definition UserPage_toggle (id : string) (user : value) : Action unit :=
  status <- get user "status" ;;
  UserActions.toggleUserStatus process_env_BASE_URL id
    (if strict_eq_string status "ACTIVE" then INACTIVE else ACTIVE) ;;
  ret tt.

(** The same action in the second copy of the page: [if (user.status ===
    "ACTIVE") { return toggleUserStatus(id, "INACTIVE"); } else { return
    toggleUserStatus(id, "ACTIVE"); }].  The promise returned is adopted. *)
Definition UserPage_toggle_returning (id : string) (user : value)
  : Action value :=
  status <- get user "status" ;;
  if strict_eq_string status "ACTIVE"
  then UserActions.toggleUserStatus process_env_BASE_URL id INACTIVE
  else UserActions.toggleUserStatus process_env_BASE_URL id ACTIVE.

(** [async () => { await deleteUser(id); }] *)
Definition UserPage_delete (id : string) : Action unit :=
  UserActions.deleteUser process_env_BASE_URL id ;;
  ret tt.

(** [async () => { await createDefaultPreferences(id); }] *)
Definition UserPage_createPreferences (id : string) : Action unit :=
  UserActions.createDefaultPreferences process_env_BASE_URL id ;;
  ret tt.

(** [async (formData) => { const title = formData.get("title") as string;
    const content = formData.get("content") as string; if (title &&
    content) await createUserPost(id, title, content); }].  A missing entry
    is [null], which is falsy as the empty text is. *)
Definition UserPage_addPost (id : string) (formData : FormData)
  : Action unit :=
  match FormData_text formData "title", FormData_text formData "content" with
  | Some title, Some content =>
      if truthy (VStr title) && truthy (VStr content) then
        UserActions.createUserPost process_env_BASE_URL id title content ;;
        ret tt
      else ret tt
  | _, _ => ret tt
  end.

End Pages.

End Pages.

(* ================================================================= *)
(** ** Properties *)

Import JS Effects Types.

(** *** Vocabulary of the statements *)

(** The one request of [addUser]. *)
Definition addUser_request (env : option string) (formData : FormData)
  : string * RequestInit :=
  (UserActions.BASE_URL env ++ "/api/v1/users",
   {| method := Some "POST";
      headers := [("Content-Type", "application/json")];
      body := Some (stringify
                      (VObj [("username", FormData_get formData "username");
                             ("email", FormData_get formData "email");
                             ("name", FormData_get formData "name");
                             ("roles", FormData_getAll formData "roles");
                             ("status", VStr "ACTIVE")]));
      cache := None;
      next_revalidate := None |}).

(** The scenario of the specification and of the test suite. *)
Definition scenario_payload : value :=
  VObj [("content", VArr [VObj [("id", VStr "1"); ("name", VStr "A")]]);
        ("totalPages", VNum 2);
        ("first", VBool true);
        ("last", VBool false);
        ("number", VNum 0)].

(** The page parameter is absent - no [searchParams], or none with a
    [page] - or it is a string that [Number] reads as NaN. *)
Definition page_absent_or_non_numeric (searchParams : option SearchParams)
  : Prop :=
  match searchParams with
  | None => True
  | Some {| page := None |} => True
  | Some {| page := Some s |} => PrimFloat.is_nan (StringToNumber s) = true
  end.

(** A string of decimal digits. *)
Fixpoint all_digits (s : string) : bool :=
  match s with
  | EmptyString => true
  | String c r => is_digit c && all_digits r
  end.

(** The integer that a string of digits denotes, after [acc]. *)
Fixpoint digits_value (acc : Z) (s : string) : Z :=
  match s with
  | EmptyString => acc
  | String c r => digits_value (10 * acc + digit_value c) r
  end.

(** *** Vocabulary of the further properties *)

(** The DELETE request of [deleteUser] and [deleteUserFromHome]. *)
Definition delete_request (env : option string) (id : string) : event :=
  Fetch (UserActions.BASE_URL env ++ "/api/v1/users/" ++ id)
    {| method := Some "DELETE";
       headers := [("Content-Type", "application/json")];
       body := None; cache := None; next_revalidate := None |}.

(** The PATCH request of [toggleUserStatus]. *)
Definition toggle_request (env : option string) (id : string)
           (status : Status) : event :=
  Fetch (UserActions.BASE_URL env ++ "/api/v1/users/" ++ id)
    {| method := Some "PATCH";
       headers := [("Content-Type", "application/json")];
       body := Some ("{" ++ quote "status" ++ ":"
                         ++ quote (Status_string status) ++ "}");
       cache := None; next_revalidate := None |}.

Definition toggle_log (id : string) (status : Status) : event :=
  ConsoleLog [LStr "Toggling user status:"; LStr id;
              LStr (Status_string status)].

(** The POST request of [createUserPost]. *)
Definition createUserPost_request (env : option string)
           (userId title content : string) : event :=
  Fetch (UserActions.BASE_URL env ++ "/api/v1/users/" ++ userId ++ "/posts")
    {| method := Some "POST";
       headers := [("Content-Type", "application/json")];
       body := Some ("{" ++ quote "title" ++ ":" ++ quote title ++ ","
                         ++ quote "content" ++ ":" ++ quote content ++ "}");
       cache := None; next_revalidate := None |}.


(** The number of requests a call sends. *)
Definition requests {A} (a : Action A) (w : World) : nat :=
  List.length (fetches (effects a w)).

(** Every request of a trace is for a path under [BASE_URL/api/v1/]. *)
Definition under_api (env : option string) (t : list event) : Prop :=
  forall url init,
    In (url, init) (fetches t) ->
    exists rest, url = UserActions.BASE_URL env ++ "/api/v1/" ++ rest.

(** The request of [getUsers]. *)
Definition getUsers_request (env : option string)
           (searchParams : option SearchParams) : event :=
  Fetch (UserActions.BASE_URL env ++ "/api/v1/users?page="
           ++ Number_toString (UserActions.currentPage searchParams)
           ++ "&size=5")
    {| method := None; headers := []; body := None; cache := None;
       next_revalidate := Some 30%float |}.

(** What the listing page relies on in the record of [getUsers]: [users]
    can be mapped over only if it is not [null], [undefined] or another
    falsy value, and no other field is [null] or [undefined]. *)
Definition filled (r : UsersPage) : Prop :=
  truthy (users r) = true
  /\ nullish (totalPages r) = false
  /\ nullish (isFirst r) = false
  /\ nullish (isLast r) = false
  /\ nullish (pageNumber r) = false
  /\ size r = VNum 5.

(** *** Running an action by cases *)

(** The float-to-string and string-to-float conversions stay folded while
    the control flow of an action is unfolded. *)
Local Arguments Number_toString : simpl never.
Local Arguments StringToNumber : simpl never.
Local Arguments stringify : simpl never.
Local Arguments String.append : simpl never.

Ltac unfold_action :=
  unfold effects, outcome, async, await, try_catch, bind, fetch, res_json,
    res_text, return_, ret, throw, console_log, console_error,
    revalidatePath, redirect, emit, get in *.

(** Case analysis on the next thing the run depends on: the answer of the
    world, the [ok] flag, a settled body. *)
Ltac next_case :=
  match goal with
  | |- context [match ?w ?u ?i with Fulfilled _ => _ | Rejected _ => _ end] =>
      destruct (w u i) eqn:?
  | |- context [ok ?r] => destruct (ok r) eqn:?
  | |- context [json ?r] => destruct (json r) eqn:?
  | |- context [text ?r] => destruct (text r) eqn:?
  end; cbn.

Ltac use_hyps :=
  repeat match goal with
         | H : _ \/ _ |- _ => destruct H
         | H : exists _, _ |- _ => destruct H
         | H : _ /\ _ |- _ => destruct H
         | H : [_] = [_] |- _ => injection H as H
         | H : [] = [_] |- _ => discriminate H
         end.

(** Two readings of the same body are the same payload. *)
Ltac same_payload :=
  repeat match goal with
         | H1 : ?p = Fulfilled ?a, H2 : ?p = Fulfilled ?b |- _ =>
             assert (a = b) by congruence; clear H2; subst
         end;
  cbn in *.

Ltac by_cases :=
  unfold failed, request_failed, answered, replies;
  unfold_action; cbn;
  repeat next_case; cbn; repeat split; intros; use_hyps;
  try congruence; eauto.

(** Two readings of the same promise settle the same way. *)
Ltac same_settled :=
  repeat match goal with
         | H1 : ?p = Fulfilled ?a, H2 : ?p = Fulfilled ?b |- _ =>
             assert (a = b) by congruence; clear H2; subst
         | H1 : ?p = Rejected ?a, H2 : ?p = Rejected ?b |- _ =>
             assert (a = b) by congruence; clear H2; subst
         | H1 : ?p = Fulfilled _, H2 : ?p = Rejected _ |- _ =>
             rewrite H1 in H2; discriminate H2
         end.

Lemma run_fetch_bind {A} (u : string) (i : RequestInit)
      (k : Response -> Action A) (w : World) :
  bind (await (fetch u i)) k w =
  match w u i with
  | Fulfilled res => (Fetch u i :: fst (k res w), snd (k res w))
  | Rejected e => ([Fetch u i], Rejected e)
  end.
Proof.
  unfold bind, await, fetch.
  destruct (w u i) as [res | e]; [destruct (k res w) |]; reflexivity.
Qed.

Lemma Number_toString_0 : Number_toString 0 = "0".
Proof. vm_compute. reflexivity. Qed.

Lemma Number_toString_5 : Number_toString 5 = "5".
Proof. vm_compute. reflexivity. Qed.

(** *** The runtime on known values *)

Example Number_known_values :
  map StringToNumber
    ["0"; "3"; "  12  "; ""; "1e3"; "0x1F"; "1.5"; "-0"; "Infinity"]
  = [0; 3; 12; 0; 1000; 31; 1.5; -0; infinity]%float.
Proof. vm_compute. reflexivity. Qed.

Example Number_not_numeric :
  map (fun s => PrimFloat.is_nan (StringToNumber s))
    ["abc"; "12px"; "1 2"; "1e"; "."; "0x"; "-0x10"; "1_000"]
  = [true; true; true; true; true; true; true; true].
Proof. vm_compute. reflexivity. Qed.

Example Number_toString_known_values :
  map Number_toString
    [0; -0; 3; 1.5; -1.5; 404; 1e21; 1e20; nan; infinity]%float
  = ["0"; "0"; "3"; "1.5"; "-1.5"; "404"; "1e+21"; "100000000000000000000";
     "NaN"; "Infinity"].
Proof. vm_compute. reflexivity. Qed.

Example Number_toString_shortest :
  Number_toString (StringToNumber "0.1") = "0.1"
  /\ Number_toString (StringToNumber "0.1" + StringToNumber "0.2")
     = "0.30000000000000004"
  /\ Number_toString (StringToNumber "1e-7") = "1e-7"
  /\ Number_toString (StringToNumber "5e-324") = "5e-324"
  /\ Number_toString (StringToNumber "9007199254740993")
     = "9007199254740992".
Proof. vm_compute. repeat split. Qed.

Example comparison_known_values :
  ge_number 1 (VNum 2) = false
  /\ ge_number 2 (VNum 2) = true
  /\ ge_number 1 VNull = true
  /\ ge_number 1 (VStr "abc") = false
  /\ ge_number 5 (VStr " 5 ") = true
  /\ ge_number 2 (VArr [VNum 1.5]) = true
  /\ ge_number 2 (VObj []) = false
  /\ ge_number nan (VNum 0) = false.
Proof. vm_compute. repeat split. Qed.

(** The body that the test suite expects from [addUser] for its form. *)
Example addUser_request_of_test_form :
  body (snd (addUser_request None
               [("username", "pre"); ("email", "pre@example.com");
                ("name", "Pre"); ("roles", "ADMIN")]))
  = Some ("{" ++ quote "username" ++ ":" ++ quote "pre" ++ ","
              ++ quote "email" ++ ":" ++ quote "pre@example.com" ++ ","
              ++ quote "name" ++ ":" ++ quote "Pre" ++ ","
              ++ quote "roles" ++ ":[" ++ quote "ADMIN" ++ "],"
              ++ quote "status" ++ ":" ++ quote "ACTIVE" ++ "}").
Proof. vm_compute. reflexivity. Qed.

Example encodeURIComponent_error :
  encodeURIComponent "Failed to add user" = "Failed%20to%20add%20user".
Proof. vm_compute. reflexivity. Qed.

(** *** Page indices written in decimal

    [Number] reads the decimal numeral of an integer [n >= 0] as the Number
    value of [n]: the float nearest to [n], which is [n] itself up to
    [2^53]. *)

Lemma digit_range c : is_digit c = true -> 48 <= byte_of c <= 57.
Proof.
  unfold is_digit. intros H. apply andb_prop in H as [H1 H2].
  apply Z.leb_le in H1, H2. split; assumption.
Qed.

(** Arithmetic on the byte of a character, the character forgotten. *)
Ltac byte_lia c := generalize dependent (byte_of c); intros; lia.

Lemma read_digits_all :
  forall s acc len,
    all_digits s = true ->
    read_digits acc len s
    = (digits_value acc s, len + Z.of_nat (String.length s), EmptyString).
Proof.
  induction s as [| c r IH]; intros acc len H;
    cbn [read_digits digits_value all_digits String.length] in *.
  - rewrite Z.add_0_r. reflexivity.
  - apply andb_prop in H as [Hc Hr]. rewrite Hc, (IH _ _ Hr).
    rewrite Nat2Z.inj_succ. do 2 f_equal. lia.
Qed.

Lemma digits_value_nonneg :
  forall s acc, all_digits s = true -> 0 <= acc -> 0 <= digits_value acc s.
Proof.
  induction s as [| c r IH]; intros acc H Hacc;
    cbn [all_digits digits_value] in *; [exact Hacc |].
  apply andb_prop in H as [Hc Hr]. apply IH; [exact Hr |].
  apply digit_range in Hc. unfold digit_value. byte_lia c.
Qed.

Lemma trim_start_digit :
  forall c r, is_digit c = true -> trim_start (String c r) = String c r.
Proof.
  intros c r Hc. apply digit_range in Hc. cbn [trim_start].
  replace (ws1 c) with false by (unfold ws1; byte_lia c).
  destruct r as [| c2 r2]; [reflexivity |].
  replace (ws2 c c2) with false by (unfold ws2; byte_lia c).
  destruct r2 as [| c3 r3]; [reflexivity |].
  replace (ws3 c c2 c3) with false by (unfold ws3; byte_lia c).
  reflexivity.
Qed.

Lemma trim_end_digits :
  forall fuel s, all_digits s = true -> trim_end_fuel fuel s = s.
Proof.
  induction fuel as [| f IH]; intros s H; [reflexivity |].
  destruct s as [| c r]; [reflexivity |].
  cbn [trim_end_fuel]. cbn [all_digits] in H.
  apply andb_prop in H as [Hc Hr].
  unfold all_white_space. rewrite (trim_start_digit c r Hc). cbn.
  rewrite (IH r Hr). reflexivity.
Qed.

Lemma trim_digits : forall s, all_digits s = true -> trim s = s.
Proof.
  intros s H. unfold trim.
  destruct s as [| c r]; [reflexivity |].
  cbn [all_digits] in H. apply andb_prop in H as [Hc Hr].
  rewrite (trim_start_digit c r Hc).
  apply trim_end_digits. cbn [all_digits]. rewrite Hc, Hr. reflexivity.
Qed.

Lemma radix_prefix_digits :
  forall s, all_digits s = true -> radix_prefix s = None.
Proof.
  intros [| c0 [| c r]] H; try reflexivity.
  cbn [all_digits] in H.
  apply andb_prop in H as [_ H]. apply andb_prop in H as [Hc _].
  apply digit_range in Hc. unfold radix_prefix.
  destruct (negb (byte_of c0 =? 48)); [reflexivity |].
  replace ((byte_of c =? 120) || (byte_of c =? 88)) with false by byte_lia c.
  replace ((byte_of c =? 111) || (byte_of c =? 79)) with false by byte_lia c.
  replace ((byte_of c =? 98) || (byte_of c =? 66)) with false by byte_lia c.
  reflexivity.
Qed.

Lemma read_sign_digit :
  forall c r, is_digit c = true -> read_sign (String c r) = (false, String c r).
Proof.
  intros c r Hc. apply digit_range in Hc. unfold read_sign.
  replace (byte_of c =? 45) with false by byte_lia c.
  replace (byte_of c =? 43) with false by byte_lia c.
  reflexivity.
Qed.

Lemma prefix_Infinity_digit :
  forall c r,
    is_digit c = true -> String.prefix "Infinity" (String c r) = false.
Proof.
  intros c r Hc. cbn [String.prefix].
  destruct (ascii_dec "I" c) as [<- | _]; [discriminate Hc | reflexivity].
Qed.

(** [Number] of a nonempty string of digits is the Number value of the
    integer it denotes. *)
Lemma StringToNumber_digits :
  forall s,
    all_digits s = true -> s <> EmptyString ->
    StringToNumber s = of_Z (digits_value 0 s).
Proof.
  intros s H Hne. unfold StringToNumber.
  rewrite (trim_digits s H), (radix_prefix_digits s H).
  destruct s as [| c r]; [contradiction |]. cbn [is_empty].
  assert (Hc : is_digit c = true)
    by (cbn [all_digits] in H; apply andb_prop in H; tauto).
  rewrite (read_sign_digit c r Hc).
  unfold read_unsigned_decimal.
  rewrite (prefix_Infinity_digit c r Hc), (read_digits_all _ 0 0 H).
  replace (0 + Z.of_nat (String.length (String c r)) =? 0) with false
    by (symmetry; apply Z.eqb_neq; cbn [String.length];
        rewrite Nat2Z.inj_succ; lia).
  cbn [andb read_exponent is_empty].
  pose proof (digits_value_nonneg _ 0 H (Z.le_refl 0)) as Hv.
  unfold float_of_decimal, decimal_ratio, of_Z.
  cbn [Z.sub Z.leb Z.compare Z.opp].
  replace (digits_value 0 (String c r) <? 0) with false
    by (symmetry; apply Z.ltb_ge; exact Hv).
  rewrite Z.abs_eq by exact Hv.
  change (10 ^ 0) with 1. rewrite Z.mul_1_r. reflexivity.
Qed.

Lemma all_digits_uint :
  forall d, all_digits (NilEmpty.string_of_uint d) = true.
Proof. induction d; cbn [NilEmpty.string_of_uint all_digits]; auto. Qed.

Lemma digits_value_uint_acc :
  forall d acc,
    digits_value (Zpos acc) (NilEmpty.string_of_uint d)
    = Zpos (Pos.of_uint_acc d acc).
Proof.
  induction d; intros acc;
    cbn [NilEmpty.string_of_uint digits_value Pos.of_uint_acc];
    [reflexivity | rewrite <- IHd; f_equal ..];
    match goal with
    | |- context [digit_value ?c] =>
        let v := eval vm_compute in (digit_value c) in
        change (digit_value c) with v
    end; lia.
Qed.

Lemma digits_value_uint :
  forall d,
    digits_value 0 (NilEmpty.string_of_uint d) = Z.of_N (Pos.of_uint d).
Proof.
  induction d;
    cbn [NilEmpty.string_of_uint digits_value Pos.of_uint N.of_uint];
    [reflexivity | exact IHd | ..];
    match goal with
    | |- digits_value ?a _ = _ =>
        change a with (Zpos (Z.to_pos a)); apply digits_value_uint_acc
    end.
Qed.

Lemma decimal_digits :
  forall n, 0 <= n ->
    all_digits (decimal n) = true
    /\ decimal n <> EmptyString
    /\ digits_value 0 (decimal n) = n.
Proof.
  intros n Hn. unfold decimal.
  pose proof (DecimalN.Unsigned.of_to (Z.to_N n)) as Hback.
  destruct (N.to_uint (Z.to_N n)) as [| d | d | d | d | d | d | d | d | d | d]
    eqn:Hd.
  1: { cbn in Hback. cbn. repeat split; try discriminate. lia. }
  all: unfold NilZero.string_of_uint; rewrite <- Hd at 1 2 3;
    repeat split;
    [ apply all_digits_uint
    | rewrite Hd; discriminate
    | rewrite digits_value_uint; unfold N.of_uint in Hback; rewrite Hd in *;
      rewrite Hback; lia ].
Qed.

(** The page index [n], passed as its decimal numeral, is read back as the
    Number value of [n]. *)
Lemma Number_decimal :
  forall n, 0 <= n -> Number (Some (decimal n)) = of_Z n.
Proof.
  intros n Hn. destruct (decimal_digits n Hn) as (Hall & Hne & Hval).
  cbn [Number]. rewrite (StringToNumber_digits _ Hall Hne), Hval.
  reflexivity.
Qed.

Lemma digits2_pos_log2 :
  forall p, Zpos (digits2_pos p) = Z.log2 (Zpos p) + 1.
Proof.
  assert (Hsize : forall p, digits2_pos p = Pos.size p)
    by (induction p; cbn; congruence).
  intros p. rewrite Hsize. destruct p; cbn; lia.
Qed.

(** A mantissa of 53 bits at an exponent in range is a float as it is. *)
Lemma valid_53_bits :
  forall p e,
    2 ^ 52 <= Zpos p < 2 ^ 53 -> -1074 <= e <= 971 ->
    valid_binary (S754_finite false p e) = true.
Proof.
  intros p e Hp He.
  assert (Hlog : Z.log2 (Zpos p) = 52)
    by (apply Z.log2_unique; [lia | exact Hp]).
  unfold valid_binary, bounded, canonical_mantissa, fexp, SpecFloat.emin.
  rewrite digits2_pos_log2, Hlog.
  change prec with 53. change emax with 1024.
  apply andb_true_intro. split.
  - apply Z.eqb_eq. lia.
  - apply Z.leb_le. lia.
Qed.

Lemma truthy_valid_finite :
  forall p e,
    valid_binary (S754_finite false p e) = true ->
    truthy_number (SF2Prim (S754_finite false p e)) = true.
Proof.
  intros p e Hvalid. apply Prim2SF_SF2Prim in Hvalid.
  unfold truthy_number. unfold Prim2SF in Hvalid.
  destruct (is_nan _); [discriminate Hvalid |].
  destruct (is_zero _); [discriminate Hvalid |].
  reflexivity.
Qed.

(** The mantissa of a positive integer has 53 bits, and its exponent is
    not below [-52]. *)
Lemma nearest_mantissa_integer :
  forall n, 0 < n ->
    2 ^ 52 <= fst (nearest_mantissa n 1) < 2 ^ 53
    /\ -52 <= snd (nearest_mantissa n 1).
Proof.
  intros n Hn.
  pose proof (Z.log2_spec n Hn) as [Hlo Hhi].
  pose proof (Z.log2_nonneg n) as HL.
  unfold nearest_mantissa. change (Z.log2 1) with 0.
  set (L := Z.log2 n) in *. rewrite Z.sub_0_r.
  assert (Hq : 2 ^ 52 <= fst (fst (scaled_quot n 1 (L - 52))) < 2 ^ 53).
  { unfold scaled_quot. destruct (Z.leb_spec 0 (L - 52)) as [He | He];
      cbn [fst].
    - rewrite Z.mul_1_l.
      assert (Hpow : 2 ^ L = 2 ^ 52 * 2 ^ (L - 52))
        by (rewrite <- Z.pow_add_r by lia; f_equal; lia).
      assert (Hpos : 0 < 2 ^ (L - 52)) by (apply Z.pow_pos_nonneg; lia).
      split.
      + apply Z.div_le_lower_bound; [exact Hpos | lia].
      + apply Z.div_lt_upper_bound; [exact Hpos |].
        replace (Z.succ L) with (53 + (L - 52)) in Hhi by lia.
        rewrite Z.pow_add_r in Hhi by lia. lia.
    - rewrite Z.div_1_r.
      assert (Hpos : 0 < 2 ^ (- (L - 52))) by (apply Z.pow_pos_nonneg; lia).
      assert (H52 : 2 ^ 52 = 2 ^ L * 2 ^ (- (L - 52)))
        by (rewrite <- Z.pow_add_r by lia; f_equal; lia).
      assert (H53 : 2 ^ 53 = 2 ^ Z.succ L * 2 ^ (- (L - 52)))
        by (rewrite <- Z.pow_add_r by lia; f_equal; lia).
      rewrite H52 at 1. rewrite H53. split.
      + apply Z.mul_le_mono_nonneg_r; lia.
      + apply Z.mul_lt_mono_pos_r; lia. }
  destruct (scaled_quot n 1 (L - 52)) as [[q r] D] eqn:Hsq. cbn [fst] in Hq.
  replace (2 ^ 52 <=? q) with true by (symmetry; apply Z.leb_le; lia).
  rewrite Z.max_l by lia. rewrite Hsq.
  unfold round_half_even.
  destruct ((D <? 2 * r) || ((D =? 2 * r) && Z.odd q)).
  - destruct (Z.eqb_spec (q + 1) (2 ^ 53)) as [Heq | Hne]; cbn [fst snd]; lia.
  - destruct (Z.eqb_spec q (2 ^ 53)) as [Heq | Hne]; cbn [fst snd]; lia.
Qed.

Lemma of_Z_truthy : forall n, 0 < n -> truthy_number (of_Z n) = true.
Proof.
  intros n Hn. unfold of_Z.
  replace (n <? 0) with false by (symmetry; apply Z.ltb_ge; lia).
  rewrite Z.abs_eq by lia. unfold nearest_float.
  replace (n <=? 0) with false by (symmetry; apply Z.leb_gt; lia).
  pose proof (nearest_mantissa_integer n Hn) as [Hm He].
  destruct (nearest_mantissa n 1) as [m e]. cbn [fst snd] in *.
  destruct (Z.ltb_spec 971 e) as [Hbig | Hfit]; [reflexivity |].
  destruct m as [| p | p]; try lia.
  apply truthy_valid_finite, valid_53_bits; lia.
Qed.

(** *** [getUsers] *)

(** The page index [getUsers] asks for is a number, never NaN. *)
Lemma currentPage_not_nan :
  forall searchParams,
    PrimFloat.is_nan (UserActions.currentPage searchParams) = false.
Proof.
  intros searchParams. unfold UserActions.currentPage, or_number.
  destruct (truthy_number _) eqn:Ht; [| reflexivity].
  unfold truthy_number in Ht.
  destruct (PrimFloat.is_nan _); [discriminate | reflexivity].
Qed.

(** Asked for page [n], written in decimal, [getUsers] asks the backend for
    page [n]. *)
Lemma currentPage_of_page_index :
  forall n, 0 <= n ->
    UserActions.currentPage (Some {| page := Some (decimal n) |}) = of_Z n.
Proof.
  intros n Hn. unfold UserActions.currentPage. cbn [page].
  rewrite (Number_decimal n Hn). unfold or_number.
  destruct (Z.eq_dec n 0) as [-> | Hpos]; [reflexivity |].
  rewrite of_Z_truthy by lia. reflexivity.
Qed.

Example currentPage_of_3 :
  UserActions.currentPage (Some {| page := Some "3" |}) = 3%float.
Proof. reflexivity. Qed.

(** C1, as the code has it.  Let [p] be the page index asked for,
    [Number(page) || 0]: it is [n] when the page parameter is the decimal
    numeral of an integer [n >= 0].  On an OK answer whose payload is
    neither [null] nor [undefined], [getUsers] returns a record with:
    [users] the payload's [content], the empty
    sequence when that is absent or otherwise falsy; [totalPages] the
    payload's, 1 when absent or [null]; [pageNumber] the payload's
    [number], [p] when absent or [null]; [size] 5; [isFirst] the payload's
    [first], [p === 0] when absent or [null]; [isLast] the payload's [last]
    and, when that is absent or [null], [p + 1 >= totalPages] - which is
    [pageNumber + 1 >= totalPages] when [number] is absent or [null]
    too. *)
Theorem getUsers_normalized_page :
  forall (env : option string) (searchParams : option SearchParams)
         (w : World) (res : Response) (data : value),
    let call := UserActions.getUsers env searchParams in
    let p := UserActions.currentPage searchParams in
    answered call w res -> ok res = true -> json res = Fulfilled data ->
    nullish data = false ->
    (forall n, 0 <= n ->
               searchParams = Some {| page := Some (decimal n) |} ->
               p = of_Z n)
    /\ exists r,
      outcome call w = Fulfilled r
      /\ users r = (if truthy (field data "content")
                    then field data "content" else VArr [])
      /\ totalPages r = (if nullish (field data "totalPages")
                         then VNum 1 else field data "totalPages")
      /\ pageNumber r = (if nullish (field data "number")
                         then VNum p else field data "number")
      /\ size r = VNum 5
      /\ isFirst r = (if nullish (field data "first")
                      then VBool (PrimFloat.eqb p 0) else field data "first")
      /\ (nullish (field data "last") = false ->
          isLast r = field data "last")
      /\ (nullish (field data "last") = true ->
          isLast r = VBool (ge_number (p + 1) (totalPages r)))
      /\ (nullish (field data "last") = true ->
          nullish (field data "number") = true ->
          exists x, pageNumber r = VNum x
                    /\ isLast r = VBool (ge_number (x + 1) (totalPages r))).
Proof.
  intros env searchParams w res data call p Hres Hok Hjson Hdata.
  subst call p.
  split; [intros n Hn ->; apply currentPage_of_page_index; exact Hn |].
  unfold answered, replies, effects, outcome in *.
  unfold UserActions.getUsers in *. cbv zeta in *.
  rewrite run_fetch_bind in *.
  destruct (w _ _) as [res' | e] eqn:Hw; cbn in Hres; rewrite Hw in Hres;
    [| discriminate Hres].
  injection Hres as Hres _. subst res'.
  rewrite Hok. cbn [negb snd].
  unfold_action. rewrite Hjson.
  destruct data as [ | | b | x | s | elems | fields];
    try discriminate Hdata; cbn;
    (eexists; split; [reflexivity |]); cbn;
    unfold or_else, coalesce, strict_eq_number; cbn;
    repeat split; try discriminate; intros; eauto;
    repeat match goal with
           | H : nullish ?v = _ |- _ => rewrite H
           end; eauto.
Qed.

(** Witness of C1: the scenario.  For page 0 and the payload
    [{content: [{id: "1", name: "A"}], totalPages: 2, first: true,
    last: false, number: 0}] the record returned is
    [{users: [{id: "1", name: "A"}], totalPages: 2, isFirst: true,
    isLast: false, pageNumber: 0, size: 5}]. *)
Lemma getUsers_normalized_page_witness :
  outcome (UserActions.getUsers None (Some {| page := Some "0" |}))
    (mockResolvedValue (ok_json scenario_payload))
  = Fulfilled
      {| users := VArr [VObj [("id", VStr "1"); ("name", VStr "A")]];
         totalPages := VNum 2;
         isFirst := VBool true;
         isLast := VBool false;
         pageNumber := VNum 0;
         size := VNum 5 |}.
Proof.
  destruct (getUsers_normalized_page None (Some {| page := Some "0" |})
              (mockResolvedValue (ok_json scenario_payload))
              (ok_json scenario_payload) scenario_payload
              eq_refl eq_refl eq_refl eq_refl)
    as (_ & r & Hr & Husers & Htotal & Hnumber & Hsize & Hfirst & Hlast & _).
  rewrite Hr. f_equal.
  destruct r as [u t f l n s]. cbn in *.
  rewrite Husers, Htotal, Hnumber, Hsize, Hfirst, (Hlast eq_refl).
  reflexivity.
Defined.

(** C1 as stated fails in three ways.  At page 0, for an OK payload that
    omits [last] and reports [number: 3] of [totalPages: 2], [isLast] is
    [false] although [pageNumber + 1 >= totalPages] holds.  For the OK
    payload [null] no record is returned: the promise is rejected.  And a
    field that is there with the value [null] is not handed on but
    replaced as an absent one is. *)
Lemma getUsers_isLast_counterexample :
  (let payload := VObj [("content", VArr []); ("totalPages", VNum 2);
                        ("number", VNum 3)] in
   let call := UserActions.getUsers None (Some {| page := Some "0" |}) in
   let w := mockResolvedValue (ok_json payload) in
   answered call w (ok_json payload)
   /\ field payload "last" = VUndefined
   /\ exists r,
       outcome call w = Fulfilled r
       /\ pageNumber r = VNum 3
       /\ totalPages r = VNum 2
       /\ isLast r = VBool false
       /\ isLast r <> VBool (ge_number (3 + 1) (totalPages r)))
  /\ (let call := UserActions.getUsers None (Some {| page := Some "0" |}) in
      let w := mockResolvedValue (ok_json VNull) in
      answered call w (ok_json VNull)
      /\ outcome call w
         = Rejected (TypeError
                       "Cannot read properties of null (reading 'content')"))
  /\ (let payload := VObj [("content", VNull); ("totalPages", VNull);
                           ("number", VNull)] in
      let call := UserActions.getUsers None (Some {| page := Some "0" |}) in
      let w := mockResolvedValue (ok_json payload) in
      field payload "totalPages" = VNull
      /\ exists r,
          outcome call w = Fulfilled r
          /\ users r = VArr []
          /\ totalPages r = VNum 1
          /\ pageNumber r = VNum 0).
Proof.
  cbv zeta. split; [| split].
  - split; [reflexivity |]. split; [reflexivity |].
    eexists. split; [reflexivity |].
    repeat split; try reflexivity.
    vm_compute. discriminate.
  - split; reflexivity.
  - split; [reflexivity |].
    eexists. repeat split; reflexivity.
Qed.

(** *** The default page *)

Lemma currentPage_default :
  forall searchParams,
    page_absent_or_non_numeric searchParams ->
    UserActions.currentPage searchParams = 0%float.
Proof.
  intros [[[s |]] |] H; try reflexivity.
  cbn in H. unfold UserActions.currentPage, or_number, truthy_number. cbn.
  rewrite H. reflexivity.
Qed.

(** C5.  When the page parameter is absent or non-numeric, the page index
    is 0: the request asks for [page=0], and the fallbacks of [isFirst],
    [isLast] and [pageNumber] are those of page 0 ([true], [1 >=
    totalPages] and [0]). *)
Theorem getUsers_default_page :
  forall (env : option string) (searchParams : option SearchParams)
         (w : World),
    let call := UserActions.getUsers env searchParams in
    page_absent_or_non_numeric searchParams ->
    UserActions.currentPage searchParams = 0%float
    /\ fetches (effects call w)
       = [(UserActions.BASE_URL env ++ "/api/v1/users?page=0&size=5",
           {| method := None; headers := []; body := None; cache := None;
              next_revalidate := Some 30%float |})]
    /\ (forall res data,
        answered call w res -> ok res = true -> json res = Fulfilled data ->
        nullish data = false ->
        exists r,
          outcome call w = Fulfilled r
          /\ isFirst r = coalesce (field data "first") (VBool true)
          /\ isLast r
             = coalesce (field data "last")
                 (VBool (ge_number 1
                           (coalesce (field data "totalPages") (VNum 1))))
          /\ pageNumber r = coalesce (field data "number") (VNum 0)).
Proof.
  intros env searchParams w call Habsent. subst call.
  pose proof (currentPage_default searchParams Habsent) as Hp.
  split; [exact Hp |].
  unfold answered, replies, effects, outcome.
  unfold UserActions.getUsers. cbv zeta.
  rewrite Hp, Number_toString_0, Number_toString_5.
  rewrite run_fetch_bind.
  change (UserActions.BASE_URL env ++ "/api/v1/users?page=" ++ "0"
            ++ "&size=" ++ "5")
    with (UserActions.BASE_URL env ++ "/api/v1/users?page=0&size=5").
  destruct (w _ _) as [res' | e] eqn:Hw.
  - split.
    + cbn [fst]. unfold_action. cbn.
      destruct (ok res'); cbn; [| reflexivity].
      destruct (json res') as [d | e]; cbn; [| reflexivity].
      destruct d; reflexivity.
    + intros res data Hres Hok Hjson Hdata.
      cbn in Hres. rewrite Hw in Hres.
      injection Hres as Hres _. subst res'.
      rewrite Hok. cbn [negb snd].
      unfold_action. rewrite Hjson.
      destruct data as [ | | b | x | s | elems | fields];
        try discriminate Hdata; cbn;
        (eexists; split; [reflexivity |]); cbn; repeat split.
  - split; [reflexivity |].
    intros res data Hres. cbn in Hres. rewrite Hw in Hres.
    discriminate Hres.
Qed.

(** Witness of C5: no [page] at all, and [page=abc] under an OK answer
    [{}]. *)
Lemma getUsers_default_page_witness :
  UserActions.currentPage (Some {| page := None |}) = 0%float
  /\ fetches (effects (UserActions.getUsers None
                         (Some {| page := Some "abc" |}))
                (mockResolvedValue (ok_json (VObj []))))
     = [("http://localhost:8080/api/v1/users?page=0&size=5",
         {| method := None; headers := []; body := None; cache := None;
            next_revalidate := Some 30%float |})]
  /\ exists r,
      outcome (UserActions.getUsers None (Some {| page := Some "abc" |}))
        (mockResolvedValue (ok_json (VObj []))) = Fulfilled r
      /\ isFirst r = VBool true
      /\ isLast r = VBool true
      /\ pageNumber r = VNum 0.
Proof.
  split; [| split].
  - apply (getUsers_default_page None (Some {| page := None |})
             (mockResolvedValue (ok_json (VObj [])))).
    exact I.
  - apply (getUsers_default_page None (Some {| page := Some "abc" |})
             (mockResolvedValue (ok_json (VObj [])))).
    reflexivity.
  - destruct (getUsers_default_page None (Some {| page := Some "abc" |})
                (mockResolvedValue (ok_json (VObj []))) eq_refl)
      as (_ & _ & Hrecord).
    destruct (Hrecord (ok_json (VObj [])) (VObj [])
                eq_refl eq_refl eq_refl eq_refl)
      as (r & Hr & Hfirst & Hlast & Hnumber).
    exists r. repeat split; assumption.
Defined.

(** *** The two copies of [getUsers] *)

(** Where the two copies ask for the same page index they do the same. *)
Lemma getUsers_copies_agree_on_same_page :
  forall (env : option string) (searchParams : option SearchParams)
         (w : World),
    LibApi.currentPage searchParams = UserActions.currentPage searchParams ->
    LibApi.getUsers env searchParams w
    = UserActions.getUsers env searchParams w.
Proof.
  intros env searchParams w Hp.
  unfold LibApi.getUsers, UserActions.getUsers. cbv zeta.
  rewrite Hp. reflexivity.
Qed.

(** That is so when [Number(page)] is truthy, and when there is no
    [searchParams] at all. *)
Lemma currentPage_copies_agree :
  forall searchParams,
    searchParams = None
    \/ truthy_number (LibApi.currentPage searchParams) = true ->
    LibApi.currentPage searchParams = UserActions.currentPage searchParams.
Proof.
  intros searchParams [-> | Ht]; [reflexivity |].
  unfold UserActions.currentPage, or_number.
  unfold LibApi.currentPage in *. rewrite Ht. reflexivity.
Qed.

(** C7 at the failing inputs.  With [searchParams = {}] and with
    [page = "abc"], under an OK answer [{}], the copy of [lib/api.ts] asks
    for [page=NaN] and returns [pageNumber: NaN], [isFirst: false],
    [isLast: false], where [userActions] asks for [page=0] and returns
    [pageNumber: 0], [isFirst: true], [isLast: true]. *)
Theorem getUsers_copies_differ_without_numeric_page :
  let w := mockResolvedValue (ok_json (VObj [])) in
  let init := {| method := None; headers := []; body := None;
                 cache := None; next_revalidate := Some 30%float |} in
  let from_lib :=
    ([Fetch "http://localhost:8080/api/v1/users?page=NaN&size=5" init],
     Fulfilled {| users := VArr []; totalPages := VNum 1;
                  isFirst := VBool false; isLast := VBool false;
                  pageNumber := VNum nan; size := VNum 5 |}) in
  let from_actions :=
    ([Fetch "http://localhost:8080/api/v1/users?page=0&size=5" init],
     Fulfilled {| users := VArr []; totalPages := VNum 1;
                  isFirst := VBool true; isLast := VBool true;
                  pageNumber := VNum 0; size := VNum 5 |}) in
  LibApi.getUsers None (Some {| page := None |}) w = from_lib
  /\ UserActions.getUsers None (Some {| page := None |}) w = from_actions
  /\ LibApi.getUsers None (Some {| page := Some "abc" |}) w = from_lib
  /\ UserActions.getUsers None (Some {| page := Some "abc" |}) w
     = from_actions
  /\ page_absent_or_non_numeric (Some {| page := None |})
  /\ page_absent_or_non_numeric (Some {| page := Some "abc" |})
  /\ map fst (fetches (fst from_lib)) <> map fst (fetches (fst from_actions)).
Proof.
  cbv zeta. repeat split; try reflexivity.
  cbn. discriminate.
Qed.

(** *** Cache invalidation after a mutation *)

(** C2, as the code has it.  When the backend answers OK, each mutating
    operation signals exactly one path: ["/users"] for [addUser],
    [deleteUser], [deleteUserFromHome] and [toggleUserStatus];
    ["/users/" ++ userId] for [createUserPost] and
    [createDefaultPreferences]; and ["/users/"], without any id, for
    [softDeletePost]. *)
Theorem mutations_revalidate_on_ok :
  forall (env : option string) (w : World) (res : Response),
    ok res = true ->
    (forall formData,
        answered (UserActions.addUser env formData) w res ->
        revalidated (effects (UserActions.addUser env formData) w)
        = ["/users"])
    /\ (forall id,
        answered (UserActions.deleteUser env id) w res ->
        revalidated (effects (UserActions.deleteUser env id) w)
        = ["/users"])
    /\ (forall id,
        answered (UserActions.deleteUserFromHome env id) w res ->
        revalidated (effects (UserActions.deleteUserFromHome env id) w)
        = ["/users"])
    /\ (forall id status,
        answered (UserActions.toggleUserStatus env id status) w res ->
        revalidated (effects (UserActions.toggleUserStatus env id status) w)
        = ["/users"])
    /\ (forall userId title content,
        answered (UserActions.createUserPost env userId title content) w res ->
        revalidated
          (effects (UserActions.createUserPost env userId title content) w)
        = ["/users/" ++ userId])
    /\ (forall userId,
        answered (UserActions.createDefaultPreferences env userId) w res ->
        revalidated
          (effects (UserActions.createDefaultPreferences env userId) w)
        = ["/users/" ++ userId])
    /\ (forall postId,
        answered (UserActions.softDeletePost env postId) w res ->
        revalidated (effects (UserActions.softDeletePost env postId) w)
        = ["/users/"]).
Proof.
  intros env w res Hok.
  repeat match goal with |- _ /\ _ => split end.
  - intros formData. unfold UserActions.addUser. by_cases.
  - intros id. unfold UserActions.deleteUser. destruct id; by_cases.
  - intros id. unfold UserActions.deleteUserFromHome. destruct id; by_cases.
  - intros id status. unfold UserActions.toggleUserStatus. by_cases.
  - intros userId title content. unfold UserActions.createUserPost. by_cases.
  - intros userId. unfold UserActions.createDefaultPreferences. by_cases.
  - intros postId. unfold UserActions.softDeletePost. by_cases.
Qed.

(** Witness of C2: the seven operations under an OK answer. *)
Lemma mutations_revalidate_on_ok_witness :
  let w := mockResolvedValue (ok_json (VObj [("id", VStr "7")])) in
  revalidated (effects (UserActions.addUser None [("username", "pre")]) w)
  = ["/users"]
  /\ revalidated (effects (UserActions.deleteUser None "7") w) = ["/users"]
  /\ revalidated
       (effects (UserActions.createUserPost None "7" "Title" "Body") w)
     = ["/users/" ++ "7"]
  /\ revalidated (effects (UserActions.softDeletePost None "p1") w)
     = ["/users/"].
Proof.
  cbv zeta.
  pose proof (mutations_revalidate_on_ok None
                (mockResolvedValue (ok_json (VObj [("id", VStr "7")])))
                (ok_json (VObj [("id", VStr "7")])) eq_refl)
    as (Hadd & Hdel & _ & _ & Hpost & _ & Hsoft).
  split; [| split; [| split]].
  - apply Hadd. reflexivity.
  - apply Hdel. reflexivity.
  - apply Hpost. reflexivity.
  - apply Hsoft. reflexivity.
Defined.

(** C2 as stated fails on [softDeletePost]: deleting post ["p1"] under an
    OK answer signals ["/users/"], not a path ["/users/{id}"]. *)
Lemma softDeletePost_path_counterexample :
  let w := mockResolvedValue (ok_json (VBool true)) in
  let call := UserActions.softDeletePost None "p1" in
  answered call w (ok_json (VBool true))
  /\ ok (ok_json (VBool true)) = true
  /\ revalidated (effects call w) = ["/users/"]
  /\ revalidated (effects call w) <> ["/users/" ++ "p1"].
Proof.
  cbv zeta. repeat split; try reflexivity.
  vm_compute. discriminate.
Qed.

(** *** No signal after a failure *)

(** C9, as the code has it.  When the request fails or the backend answers
    with a status that is not OK, no mutating operation signals a cache
    invalidation, and none redirects except [addUserAction], which
    navigates to its error destination. *)
Theorem failed_mutations_signal_nothing :
  forall (env : option string) (w : World),
    (forall formData,
        failed (UserActions.addUser env formData) w ->
        revalidated (effects (UserActions.addUser env formData) w) = []
        /\ redirects (effects (UserActions.addUser env formData) w) = [])
    /\ (forall id,
        failed (UserActions.deleteUser env id) w ->
        revalidated (effects (UserActions.deleteUser env id) w) = []
        /\ redirects (effects (UserActions.deleteUser env id) w) = [])
    /\ (forall id,
        failed (UserActions.deleteUserFromHome env id) w ->
        revalidated (effects (UserActions.deleteUserFromHome env id) w) = []
        /\ redirects (effects (UserActions.deleteUserFromHome env id) w) = [])
    /\ (forall id status,
        failed (UserActions.toggleUserStatus env id status) w ->
        revalidated (effects (UserActions.toggleUserStatus env id status) w)
        = []
        /\ redirects (effects (UserActions.toggleUserStatus env id status) w)
           = [])
    /\ (forall userId title content,
        failed (UserActions.createUserPost env userId title content) w ->
        revalidated
          (effects (UserActions.createUserPost env userId title content) w)
        = []
        /\ redirects
             (effects (UserActions.createUserPost env userId title content) w)
           = [])
    /\ (forall postId,
        failed (UserActions.softDeletePost env postId) w ->
        revalidated (effects (UserActions.softDeletePost env postId) w) = []
        /\ redirects (effects (UserActions.softDeletePost env postId) w) = [])
    /\ (forall userId,
        failed (UserActions.createDefaultPreferences env userId) w ->
        revalidated
          (effects (UserActions.createDefaultPreferences env userId) w) = []
        /\ redirects
             (effects (UserActions.createDefaultPreferences env userId) w)
           = [])
    /\ (forall formData,
        failed (UserActions.addUserAction env formData) w ->
        revalidated (effects (UserActions.addUserAction env formData) w) = []
        /\ redirects (effects (UserActions.addUserAction env formData) w)
           = ["/users/add?error=Failed%20to%20add%20user"]).
Proof.
  intros env w.
  repeat match goal with |- _ /\ _ => split end.
  - intros formData. unfold UserActions.addUser. by_cases.
  - intros id. unfold UserActions.deleteUser. destruct id; by_cases.
  - intros id. unfold UserActions.deleteUserFromHome. destruct id; by_cases.
  - intros id status. unfold UserActions.toggleUserStatus. by_cases.
  - intros userId title content. unfold UserActions.createUserPost. by_cases.
  - intros postId. unfold UserActions.softDeletePost. by_cases.
  - intros userId. unfold UserActions.createDefaultPreferences. by_cases.
  - intros formData.
    unfold UserActions.addUserAction, UserActions.addUser. by_cases.
Qed.

(** Witness of C9: a rejected request and an answer that is not OK. *)
Lemma failed_mutations_signal_nothing_witness :
  (let call := UserActions.deleteUser None "123" in
   let w := mockRejectedValue (TypeError "fetch failed") in
   revalidated (effects call w) = [] /\ redirects (effects call w) = [])
  /\ (let call := UserActions.toggleUserStatus None "123" INACTIVE in
      let w := mockResolvedValue (not_ok 500 "Internal Server Error") in
      revalidated (effects call w) = [] /\ redirects (effects call w) = []).
Proof.
  cbv zeta. split.
  - apply (proj1 (proj2 (failed_mutations_signal_nothing None
                           (mockRejectedValue (TypeError "fetch failed"))))).
    left. exists (TypeError "fetch failed"). reflexivity.
  - apply (proj1 (proj2 (proj2 (proj2
             (failed_mutations_signal_nothing None
                (mockResolvedValue (not_ok 500 "Internal Server Error"))))))).
    right. exists (not_ok 500 "Internal Server Error"). split; reflexivity.
Defined.

(** C9 as stated fails twice.  [addUserAction] redirects after a failure;
    and when the backend answers OK with a body that cannot be read,
    [toggleUserStatus] has signalled ["/users"] before it rejects. *)
Lemma signal_after_failure_counterexample :
  (let w := mockResolvedValue (not_ok 400 "Bad Request") in
   let call := UserActions.addUserAction None [] in
   failed call w
   /\ redirects (effects call w)
      = ["/users/add?error=Failed%20to%20add%20user"])
  /\ (let w := mockResolvedValue ok_empty_body in
      let call := UserActions.toggleUserStatus None "123" INACTIVE in
      answered call w ok_empty_body
      /\ json ok_empty_body
         = Rejected (SyntaxError "Unexpected end of JSON input")
      /\ outcome call w
         = Rejected (SyntaxError "Unexpected end of JSON input")
      /\ revalidated (effects call w) = ["/users"]).
Proof.
  cbv zeta. split.
  - split; [| reflexivity].
    right. exists (not_ok 400 "Bad Request"). split; reflexivity.
  - repeat split; reflexivity.
Qed.

(** *** [getUserPreferences] *)

(** C3, as the code has it.  In every world [getUserPreferences] fulfils
    its promise.  The value is [null] when the request fails, when the
    answer is not OK, when the body of an OK answer cannot be read, and
    when the payload has a truthy [error] field; otherwise (the field is
    absent or falsy) it is the payload, unchanged. *)
Theorem getUserPreferences_null_or_payload :
  forall (env : option string) (id : string) (w : World),
    let call := UserActions.getUserPreferences env id in
    (exists v, outcome call w = Fulfilled v)
    /\ (failed call w -> outcome call w = Fulfilled VNull)
    /\ (forall res e,
        answered call w res -> ok res = true -> json res = Rejected e ->
        outcome call w = Fulfilled VNull)
    /\ (forall res data,
        answered call w res -> ok res = true -> json res = Fulfilled data ->
        truthy (field data "error") = true ->
        outcome call w = Fulfilled VNull)
    /\ (forall res data,
        answered call w res -> ok res = true -> json res = Fulfilled data ->
        data <> VUndefined ->
        truthy (field data "error") = false ->
        outcome call w = Fulfilled data).
Proof.
  intros env id w call. subst call.
  unfold UserActions.getUserPreferences.
  unfold failed, request_failed, answered, replies.
  unfold_action. cbn.
  destruct (w _ _) as [res | e] eqn:Hw; cbn;
    [destruct (ok res) eqn:Hok; cbn;
     [destruct (json res) as [data | e] eqn:Hjson; cbn;
      [destruct data as [ | | b | x | s | elems | fields]; cbn;
       try destruct (truthy (lookup "error" fields)) eqn:Herr; cbn | ] | ] | ];
    repeat split; intros; use_hyps; subst; same_payload;
    try congruence; eauto.
Qed.

(** Witness of C3: an answer that is not OK, a rejected request, an
    unreadable body, a payload with an error message, a plain payload. *)
Lemma getUserPreferences_null_or_payload_witness :
  outcome (UserActions.getUserPreferences None "1")
    (mockResolvedValue (not_ok 404 "Not Found")) = Fulfilled VNull
  /\ outcome (UserActions.getUserPreferences None "1")
       (mockRejectedValue (TypeError "fetch failed")) = Fulfilled VNull
  /\ outcome (UserActions.getUserPreferences None "1")
       (mockResolvedValue ok_empty_body) = Fulfilled VNull
  /\ outcome (UserActions.getUserPreferences None "1")
       (mockResolvedValue (ok_json (VObj [("error", VStr "Not found")])))
     = Fulfilled VNull
  /\ outcome (UserActions.getUserPreferences None "1")
       (mockResolvedValue (ok_json (VObj [("theme", VStr "dark")])))
     = Fulfilled (VObj [("theme", VStr "dark")]).
Proof.
  repeat match goal with |- _ /\ _ => split end.
  - apply (getUserPreferences_null_or_payload None "1").
    right. exists (not_ok 404 "Not Found"). split; reflexivity.
  - apply (getUserPreferences_null_or_payload None "1").
    left. exists (TypeError "fetch failed"). reflexivity.
  - apply (proj1 (proj2 (proj2
             (getUserPreferences_null_or_payload None "1"
                (mockResolvedValue ok_empty_body))))
             ok_empty_body (SyntaxError "Unexpected end of JSON input"));
      reflexivity.
  - apply (proj1 (proj2 (proj2 (proj2
             (getUserPreferences_null_or_payload None "1"
                (mockResolvedValue
                   (ok_json (VObj [("error", VStr "Not found")])))))))
             (ok_json (VObj [("error", VStr "Not found")]))
             (VObj [("error", VStr "Not found")]));
      reflexivity.
  - apply (proj2 (proj2 (proj2 (proj2
             (getUserPreferences_null_or_payload None "1"
                (mockResolvedValue
                   (ok_json (VObj [("theme", VStr "dark")])))))))
             (ok_json (VObj [("theme", VStr "dark")]))
             (VObj [("theme", VStr "dark")]));
      try reflexivity.
    discriminate.
Defined.

(** C3 as stated fails on an OK payload whose [error] field is there but
    falsy: [{error: null, theme: "dark"}] is returned, not [null]. *)
Lemma getUserPreferences_falsy_error_counterexample :
  let payload := VObj [("error", VNull); ("theme", VStr "dark")] in
  let w := mockResolvedValue (ok_json payload) in
  let call := UserActions.getUserPreferences None "1" in
  answered call w (ok_json payload)
  /\ ok (ok_json payload) = true
  /\ json (ok_json payload) = Fulfilled payload
  /\ In "error" (map fst [("error", VNull); ("theme", VStr "dark")])
  /\ outcome call w = Fulfilled payload
  /\ outcome call w <> Fulfilled VNull.
Proof.
  cbv zeta. repeat split; try reflexivity.
  - left. reflexivity.
  - vm_compute. discriminate.
Qed.

(** *** [addUser] *)

(** C4.  [addUser] sends exactly one request, a POST whose body is the JSON
    text of [{username, email, name, roles, status: "ACTIVE"}] read from
    the form; it returns [{success: true}] when the answer is OK and
    [{success: false, error: "Failed to add user"}] when the answer is not
    OK or the request fails; in every world its promise is fulfilled. *)
Theorem addUser_one_post_never_rejects :
  forall (env : option string) (formData : FormData) (w : World),
    let call := UserActions.addUser env formData in
    fetches (effects call w) = [addUser_request env formData]
    /\ (forall res, answered call w res -> ok res = true ->
        outcome call w = Fulfilled {| success := true; error := None |})
    /\ (failed call w ->
        outcome call w
        = Fulfilled {| success := false;
                       error := Some "Failed to add user" |})
    /\ (exists r, outcome call w = Fulfilled r).
Proof.
  intros env formData w call. subst call.
  unfold failed, request_failed, answered, replies, addUser_request.
  unfold UserActions.addUser. unfold_action. cbn.
  repeat next_case; cbn; repeat split; intros;
    repeat match goal with
           | H : _ \/ _ |- _ => destruct H
           | H : exists _, _ |- _ => destruct H
           | H : _ /\ _ |- _ => destruct H
           | H : [_] = [_] |- _ => injection H as H
           end;
    try congruence; eauto.
Qed.

(** Witness of C4: the populated form of the test suite under an OK
    answer, an empty form under a 400. *)
Lemma addUser_one_post_never_rejects_witness :
  outcome (UserActions.addUser None
             [("username", "pre"); ("email", "pre@example.com");
              ("name", "Pre"); ("roles", "ADMIN")])
    (mockResolvedValue (ok_json (VObj [("id", VStr "123")])))
  = Fulfilled {| success := true; error := None |}
  /\ outcome (UserActions.addUser None [])
       (mockResolvedValue (not_ok 400 "Bad Request"))
     = Fulfilled {| success := false; error := Some "Failed to add user" |}.
Proof.
  split.
  - apply (proj1 (proj2
             (addUser_one_post_never_rejects None
                [("username", "pre"); ("email", "pre@example.com");
                 ("name", "Pre"); ("roles", "ADMIN")]
                (mockResolvedValue (ok_json (VObj [("id", VStr "123")])))))
             (ok_json (VObj [("id", VStr "123")])));
      reflexivity.
  - apply (proj1 (proj2 (proj2
             (addUser_one_post_never_rejects None []
                (mockResolvedValue (not_ok 400 "Bad Request")))))).
    right. exists (not_ok 400 "Bad Request"). split; reflexivity.
Defined.

(** *** Local validation in [deleteUser] *)

(** C6.  [deleteUser] and [deleteUserFromHome] called with the empty id
    reject with [Error "User ID required"] and perform no effect at all: no
    request, no cache invalidation, no redirect. *)
Theorem deleteUser_empty_id_rejected_locally :
  forall (env : option string) (w : World),
    UserActions.deleteUser env "" w
      = ([], Rejected (Error "User ID required"))
    /\ UserActions.deleteUserFromHome env "" w
      = ([], Rejected (Error "User ID required")).
Proof.
  intros env w. split; reflexivity.
Qed.

(** *** [getUserPosts] *)

(** What [getUserPosts] does on a failed request, on an answer that is not
    OK, and on an OK answer whose body is read. *)
Lemma getUserPosts_handled_cases :
  forall (env : option string) (id : string) (w : World),
    let call := UserActions.getUserPosts env id in
    (failed call w -> outcome call w = Fulfilled (VArr []))
    /\ (forall res data,
        answered call w res -> ok res = true -> json res = Fulfilled data ->
        outcome call w = Fulfilled data).
Proof.
  intros env id w call. subst call.
  unfold UserActions.getUserPosts. by_cases.
Qed.

(** The promise returned by [return res.json()] is outside the [try] when
    it rejects: [getUserPosts] rejects with it. *)
Lemma getUserPosts_unread_body_rejects :
  forall (env : option string) (id : string) (w : World) res e,
    answered (UserActions.getUserPosts env id) w res ->
    ok res = true -> json res = Rejected e ->
    outcome (UserActions.getUserPosts env id) w = Rejected e.
Proof.
  intros env id w res e. unfold UserActions.getUserPosts. by_cases.
Qed.

(** [getUserById] returns its body the same way. *)
Lemma getUserById_cases :
  forall (env : option string) (id : string) (w : World),
    let call := UserActions.getUserById env id in
    (failed call w -> outcome call w = Fulfilled VNull)
    /\ (forall res,
        answered call w res -> ok res = true ->
        outcome call w = json res).
Proof.
  intros env id w call. subst call.
  unfold UserActions.getUserById. by_cases.
Qed.

(** C8 at the failing input.  The backend answers [getUserPosts("1")] with
    200 and an empty body: the promise is rejected with the [SyntaxError]
    of [res.json()] - neither the empty sequence nor any value - and the
    [catch] has logged nothing. *)
Theorem getUserPosts_rejects_on_empty_body :
  let w := mockResolvedValue ok_empty_body in
  let call := UserActions.getUserPosts None "1" in
  answered call w ok_empty_body
  /\ ok ok_empty_body = true
  /\ outcome call w = Rejected (SyntaxError "Unexpected end of JSON input")
  /\ outcome call w <> Fulfilled (VArr [])
  /\ effects call w
     = [Fetch "http://localhost:8080/api/v1/users/1/posts"
          {| method := None; headers := []; body := None;
             cache := Some "no-store"; next_revalidate := None |}].
Proof.
  cbv zeta. repeat split; try reflexivity.
  vm_compute. discriminate.
Qed.

(** *** [toggleUserStatus] does not validate its id *)

(** C10.  [toggleUserStatus] with the empty id sends its PATCH, with the
    status body, to the collection path [BASE_URL/api/v1/users/], whatever
    the world; [deleteUser] with the empty id sends nothing and rejects
    with the local validation error. *)
Theorem toggleUserStatus_empty_id_sends_patch :
  forall (env : option string) (status : Status) (w : World),
    fetches (effects (UserActions.toggleUserStatus env "" status) w)
      = [(UserActions.BASE_URL env ++ "/api/v1/users/",
          {| method := Some "PATCH";
             headers := [("Content-Type", "application/json")];
             body := Some ("{" ++ quote "status" ++ ":"
                               ++ quote (Status_string status) ++ "}");
             cache := None;
             next_revalidate := None |})]
    /\ fetches (effects (UserActions.deleteUser env "") w) = []
    /\ outcome (UserActions.deleteUser env "") w
       = Rejected (Error "User ID required").
Proof.
  intros env status w. split; [| split; reflexivity].
  assert (Hbody : stringify (VObj [("status", VStr (Status_string status))])
                  = "{" ++ quote "status" ++ ":"
                        ++ quote (Status_string status) ++ "}")
    by (destruct status; reflexivity).
  unfold UserActions.toggleUserStatus. rewrite Hbody.
  unfold_action. cbn.
  repeat next_case; reflexivity.
Qed.

(* ================================================================= *)
(** ** Further properties of the actions *)

(** *** Reads *)

(** X1.  [getAllUsers] sends one GET for [BASE_URL/api/v1/users] with
    [cache: "no-store"] and does nothing else.  It rejects with the reason
    of a failed request, with [Error "Failed to fetch all users"] on an
    answer that is not OK, and otherwise settles as the body read as JSON
    does. *)
Theorem getAllUsers_cases :
  forall (env : option string) (w : World),
    let call := UserActions.getAllUsers env in
    effects call w
    = [Fetch (UserActions.BASE_URL env ++ "/api/v1/users")
         {| method := None; headers := []; body := None;
            cache := Some "no-store"; next_revalidate := None |}]
    /\ (forall e,
        replies w (effects call w) = [Rejected e] ->
        outcome call w = Rejected e)
    /\ (forall res,
        answered call w res -> ok res = false ->
        outcome call w = Rejected (Error "Failed to fetch all users"))
    /\ (forall res,
        answered call w res -> ok res = true ->
        outcome call w = json res).
Proof.
  intros env w call. subst call.
  unfold UserActions.getAllUsers. by_cases.
Qed.

Lemma getAllUsers_cases_witness :
  outcome (UserActions.getAllUsers None)
    (mockRejectedValue (TypeError "fetch failed"))
  = Rejected (TypeError "fetch failed")
  /\ outcome (UserActions.getAllUsers None)
       (mockResolvedValue (not_ok 500 "Internal Server Error"))
     = Rejected (Error "Failed to fetch all users")
  /\ outcome (UserActions.getAllUsers None)
       (mockResolvedValue (ok_json (VArr [VObj [("id", VStr "1")]])))
     = Fulfilled (VArr [VObj [("id", VStr "1")]]).
Proof.
  split; [| split].
  - destruct (getAllUsers_cases None
                (mockRejectedValue (TypeError "fetch failed")))
      as (_ & Hfail & _).
    apply Hfail. reflexivity.
  - destruct (getAllUsers_cases None
                (mockResolvedValue (not_ok 500 "Internal Server Error")))
      as (_ & _ & Hnot & _).
    apply (Hnot (not_ok 500 "Internal Server Error")); reflexivity.
  - destruct (getAllUsers_cases None
                (mockResolvedValue
                   (ok_json (VArr [VObj [("id", VStr "1")]]))))
      as (_ & _ & _ & Hok).
    apply (Hok (ok_json (VArr [VObj [("id", VStr "1")]]))); reflexivity.
Defined.

(** X2.  [getUserById] fulfils with [null] when the request fails or the
    answer is not OK, and settles as the body does on an OK answer.  It
    rejects in one case only: an OK answer whose body cannot be read as
    JSON, the [catch] notwithstanding. *)
Theorem getUserById_rejects_only_on_unread_body :
  forall (env : option string) (id : string) (w : World),
    let call := UserActions.getUserById env id in
    fetches (effects call w)
    = [(UserActions.BASE_URL env ++ "/api/v1/users/" ++ id,
        {| method := None; headers := []; body := None;
           cache := Some "no-store"; next_revalidate := None |})]
    /\ (failed call w -> outcome call w = Fulfilled VNull)
    /\ (forall res,
        answered call w res -> ok res = true -> outcome call w = json res)
    /\ (forall e,
        outcome call w = Rejected e ->
        exists res,
          answered call w res /\ ok res = true /\ json res = Rejected e).
Proof.
  intros env id w call. subst call.
  unfold UserActions.getUserById.
  unfold failed, request_failed, answered, replies.
  unfold_action. cbn.
  destruct (w _ _) as [res | e0] eqn:Hw; cbn;
    [destruct (ok res) eqn:Hok; cbn;
     [destruct (json res) as [data | e1] eqn:Hjson; cbn | ] | ];
    repeat split; intros; use_hyps; subst;
    try congruence; eauto.
  exists res. rewrite Hw. repeat split; congruence.
Qed.

Lemma getUserById_rejects_only_on_unread_body_witness :
  outcome (UserActions.getUserById None "999")
    (mockResolvedValue (not_ok 404 "Not Found")) = Fulfilled VNull
  /\ outcome (UserActions.getUserById None "1")
       (mockResolvedValue (ok_json (VObj [("id", VStr "1")])))
     = Fulfilled (VObj [("id", VStr "1")])
  /\ exists res,
      answered (UserActions.getUserById None "1")
        (mockResolvedValue ok_empty_body) res
      /\ ok res = true
      /\ json res = Rejected (SyntaxError "Unexpected end of JSON input").
Proof.
  split; [| split].
  - destruct (getUserById_rejects_only_on_unread_body None "999"
                (mockResolvedValue (not_ok 404 "Not Found")))
      as (_ & Hfail & _).
    apply Hfail. right. exists (not_ok 404 "Not Found").
    split; reflexivity.
  - destruct (getUserById_rejects_only_on_unread_body None "1"
                (mockResolvedValue (ok_json (VObj [("id", VStr "1")]))))
      as (_ & _ & Hok & _).
    apply (Hok (ok_json (VObj [("id", VStr "1")]))); reflexivity.
  - destruct (getUserById_rejects_only_on_unread_body None "1"
                (mockResolvedValue ok_empty_body))
      as (_ & _ & _ & Hrej).
    apply Hrej. reflexivity.
Defined.

(** *** Deleting a user *)

(** X3.  [deleteUser] is [deleteUserFromHome] followed by the redirect to
    the first page of the listing: where [deleteUserFromHome] succeeds,
    [deleteUser] performs the same effects, then [redirect("/users?page=0")],
    and never returns normally; where [deleteUserFromHome] rejects,
    [deleteUser] rejects with the same reason after the same effects. *)
Theorem deleteUser_is_deleteUserFromHome_then_redirect :
  forall (env : option string) (id : string) (w : World),
    match outcome (UserActions.deleteUserFromHome env id) w with
    | Fulfilled _ =>
        UserActions.deleteUser env id w
        = ((effects (UserActions.deleteUserFromHome env id) w
              ++ [Redirect "/users?page=0"])%list,
           Rejected (NextRedirect "/users?page=0"))
    | Rejected e =>
        UserActions.deleteUser env id w
        = (effects (UserActions.deleteUserFromHome env id) w, Rejected e)
    end.
Proof.
  intros env id w.
  unfold UserActions.deleteUser, UserActions.deleteUserFromHome.
  destruct id as [| c r]; [reflexivity |].
  unfold_action. cbn.
  destruct (w _ _) as [res | e] eqn:Hw; cbn; [| reflexivity].
  destruct (ok res); cbn; [reflexivity |].
  destruct (text res); reflexivity.
Qed.

(** X4.  What [deleteUserFromHome] does with an id that is not empty: it
    sends one DELETE for [BASE_URL/api/v1/users/{id}].  On an OK answer it
    signals ["/users"] and returns.  On an answer that is not OK it reads
    the body as text, logs status and text, and rejects with
    [Error "Delete failed ({status})"]; when that text cannot be read it
    rejects with the reason of the read instead, without a log.  When the
    request fails it rejects with its reason. *)
Theorem deleteUserFromHome_cases :
  forall (env : option string) (id : string) (w : World),
    let call := UserActions.deleteUserFromHome env id in
    (forall e,
        replies w (effects call w) = [Rejected e] ->
        call w = ([delete_request env id], Rejected e))
    /\ (forall res,
        answered call w res -> ok res = true ->
        call w
        = ([delete_request env id; RevalidatePath "/users"], Fulfilled tt))
    /\ (forall res msg,
        answered call w res -> ok res = false -> text res = Fulfilled msg ->
        call w
        = ([delete_request env id;
            ConsoleError [LStr "❌ Failed to delete user:";
                          LNum (status res); LStr msg]],
           Rejected (Error ("Delete failed ("
                              ++ Number_toString (status res) ++ ")"))))
    /\ (forall res e,
        answered call w res -> ok res = false -> text res = Rejected e ->
        call w = ([delete_request env id], Rejected e)).
Proof.
  intros env id w call. subst call.
  unfold UserActions.deleteUserFromHome, delete_request.
  destruct id as [| c r].
  - unfold answered, replies, effects. cbn.
    repeat match goal with |- _ /\ _ => split end; intros; discriminate.
  - unfold answered, replies. unfold_action. cbn.
    destruct (w _ _) as [res0 | e0] eqn:Hw; cbn;
      [destruct (ok res0) eqn:Hok; cbn;
       [| destruct (text res0) as [msg0 | e1] eqn:Htext; cbn] |];
      repeat match goal with |- _ /\ _ => split end;
      intros; use_hyps; subst; same_settled;
      try congruence; try reflexivity.
Qed.

Lemma deleteUserFromHome_cases_witness :
  UserActions.deleteUserFromHome None "123"
    (mockResolvedValue (ok_json VNull))
  = ([delete_request None "123"; RevalidatePath "/users"], Fulfilled tt)
  /\ outcome (UserActions.deleteUserFromHome None "123")
       (mockResolvedValue (not_ok 404 "Not Found"))
     = Rejected (Error "Delete failed (404)")
  /\ outcome (UserActions.deleteUserFromHome None "123")
       (mockRejectedValue (TypeError "fetch failed"))
     = Rejected (TypeError "fetch failed").
Proof.
  split; [| split].
  - destruct (deleteUserFromHome_cases None "123"
                (mockResolvedValue (ok_json VNull)))
      as (_ & Hok & _).
    apply (Hok (ok_json VNull)); reflexivity.
  - destruct (deleteUserFromHome_cases None "123"
                (mockResolvedValue (not_ok 404 "Not Found")))
      as (_ & _ & Hnot & _).
    unfold outcome.
    rewrite (Hnot (not_ok 404 "Not Found") "Not Found"
               eq_refl eq_refl eq_refl).
    reflexivity.
  - destruct (deleteUserFromHome_cases None "123"
                (mockRejectedValue (TypeError "fetch failed")))
      as (Hfail & _).
    unfold outcome.
    rewrite (Hfail (TypeError "fetch failed") eq_refl). reflexivity.
Defined.

(** *** Changing a user *)

(** X5.  [toggleUserStatus] logs, then sends one PATCH for
    [BASE_URL/api/v1/users/{id}] with body [{"status": status}].  On an OK
    answer it signals ["/users"] and settles as the body read as JSON does
    (the updated user).  On an answer that is not OK it signals nothing and
    rejects with [Error ("Failed to update status: " + text)], the raw text
    of the answer; a failed request or an unreadable text is the reason
    instead. *)
Theorem toggleUserStatus_cases :
  forall (env : option string) (id : string) (status : Status) (w : World),
    let call := UserActions.toggleUserStatus env id status in
    (forall e,
        replies w (effects call w) = [Rejected e] ->
        call w = ([toggle_log id status; toggle_request env id status],
                  Rejected e))
    /\ (forall res,
        answered call w res -> ok res = true ->
        call w = ([toggle_log id status; toggle_request env id status;
                   RevalidatePath "/users"], json res))
    /\ (forall res msg,
        answered call w res -> ok res = false -> text res = Fulfilled msg ->
        call w = ([toggle_log id status; toggle_request env id status],
                  Rejected (Error ("Failed to update status: " ++ msg))))
    /\ (forall res e,
        answered call w res -> ok res = false -> text res = Rejected e ->
        call w = ([toggle_log id status; toggle_request env id status],
                  Rejected e)).
Proof.
  intros env id status w call. subst call.
  assert (Hbody : stringify (VObj [("status", VStr (Status_string status))])
                  = "{" ++ quote "status" ++ ":"
                        ++ quote (Status_string status) ++ "}")
    by (destruct status; reflexivity).
  unfold UserActions.toggleUserStatus, toggle_request, toggle_log.
  rewrite Hbody.
  unfold answered, replies. unfold_action. cbn.
  destruct (w _ _) as [res0 | e0] eqn:Hw; cbn;
    [destruct (ok res0) eqn:Hok; cbn;
     [destruct (json res0) eqn:Hjson; cbn
     | destruct (text res0) as [msg0 | e1] eqn:Htext; cbn] |];
    repeat match goal with |- _ /\ _ => split end;
      intros; use_hyps; subst; same_settled;
    try match goal with H : json _ = _ |- _ => rewrite H end;
    try congruence; try reflexivity.
Qed.

Lemma toggleUserStatus_cases_witness :
  UserActions.toggleUserStatus None "123" INACTIVE
    (mockResolvedValue (ok_json (VObj [("status", VStr "INACTIVE")])))
  = ([toggle_log "123" INACTIVE; toggle_request None "123" INACTIVE;
      RevalidatePath "/users"],
     Fulfilled (VObj [("status", VStr "INACTIVE")]))
  /\ outcome (UserActions.toggleUserStatus None "123" ACTIVE)
       (mockResolvedValue (not_ok 409 "already active"))
     = Rejected (Error "Failed to update status: already active")
  /\ outcome (UserActions.toggleUserStatus None "123" ACTIVE)
       (mockRejectedValue (TypeError "fetch failed"))
     = Rejected (TypeError "fetch failed").
Proof.
  split; [| split].
  - destruct (toggleUserStatus_cases None "123" INACTIVE
                (mockResolvedValue
                   (ok_json (VObj [("status", VStr "INACTIVE")]))))
      as (_ & Hok & _).
    apply (Hok (ok_json (VObj [("status", VStr "INACTIVE")])));
      reflexivity.
  - destruct (toggleUserStatus_cases None "123" ACTIVE
                (mockResolvedValue (not_ok 409 "already active")))
      as (_ & _ & Hnot & _).
    unfold outcome.
    rewrite (Hnot (not_ok 409 "already active") "already active"
               eq_refl eq_refl eq_refl).
    reflexivity.
  - destruct (toggleUserStatus_cases None "123" ACTIVE
                (mockRejectedValue (TypeError "fetch failed")))
      as (Hfail & _).
    unfold outcome.
    rewrite (Hfail (TypeError "fetch failed") eq_refl). reflexivity.
Defined.

(** *** Posts and preferences *)

Lemma append_assoc :
  forall s1 s2 s3 : string, (s1 ++ s2) ++ s3 = s1 ++ (s2 ++ s3).
Proof.
  induction s1 as [| c s IH]; intros s2 s3; [reflexivity |].
  change ((String c s ++ s2) ++ s3) with (String c ((s ++ s2) ++ s3)).
  rewrite IH. reflexivity.
Qed.

Lemma createUserPost_body :
  forall title content,
    stringify (VObj [("title", VStr title); ("content", VStr content)])
    = "{" ++ quote "title" ++ ":" ++ quote title ++ ","
          ++ quote "content" ++ ":" ++ quote content ++ "}".
Proof.
  intros title content. unfold stringify.
  cbn [JSON_stringify flat_map map fst snd app String.concat].
  rewrite !append_assoc. reflexivity.
Qed.

(** X6.  [createUserPost] sends one POST for
    [BASE_URL/api/v1/users/{userId}/posts] with the JSON text of
    [{title, content}].  It returns [true] after signalling
    ["/users/{userId}"] on an OK answer, and [false] never.  Every failure
    is logged by the [catch] and thrown again unchanged: the reason of a
    failed request, and [Error "Failed to create post"] - logged a first
    time with the text of the answer - when the answer is not OK. *)
Theorem createUserPost_cases :
  forall (env : option string) (userId title content : string) (w : World),
    let call := UserActions.createUserPost env userId title content in
    let request := createUserPost_request env userId title content in
    outcome call w <> Fulfilled false
    /\ (forall e,
        replies w (effects call w) = [Rejected e] ->
        call w = ([request;
                   ConsoleError [LStr "⚠️ createUserPost error:"; LExn e]],
                  Rejected e))
    /\ (forall res,
        answered call w res -> ok res = true ->
        call w = ([request; RevalidatePath ("/users/" ++ userId)],
                  Fulfilled true))
    /\ (forall res msg,
        answered call w res -> ok res = false -> text res = Fulfilled msg ->
        call w
        = ([request;
            ConsoleError [LStr "❌ Failed to create post:"; LStr msg];
            ConsoleError [LStr "⚠️ createUserPost error:";
                          LExn (Error "Failed to create post")]],
           Rejected (Error "Failed to create post")))
    /\ (forall res e,
        answered call w res -> ok res = false -> text res = Rejected e ->
        call w = ([request;
                   ConsoleError [LStr "⚠️ createUserPost error:"; LExn e]],
                  Rejected e)).
Proof.
  intros env userId title content w call request. subst call request.
  unfold UserActions.createUserPost, createUserPost_request.
  rewrite createUserPost_body.
  unfold answered, replies. unfold_action. cbn.
  destruct (w _ _) as [res0 | e0] eqn:Hw; cbn;
    [destruct (ok res0) eqn:Hok; cbn;
     [| destruct (text res0) as [msg0 | e1] eqn:Htext; cbn] |];
    repeat match goal with |- _ /\ _ => split end;
      intros; use_hyps; subst; same_settled;
    try congruence; try reflexivity.
Qed.

Lemma createUserPost_cases_witness :
  UserActions.createUserPost None "7" "Title" "Body"
    (mockResolvedValue (ok_json (VObj [("id", VStr "p1")])))
  = ([createUserPost_request None "7" "Title" "Body";
      RevalidatePath "/users/7"], Fulfilled true)
  /\ outcome (UserActions.createUserPost None "7" "Title" "Body")
       (mockResolvedValue (not_ok 400 "Bad Request"))
     = Rejected (Error "Failed to create post")
  /\ outcome (UserActions.createUserPost None "7" "Title" "Body")
       (mockRejectedValue (TypeError "fetch failed"))
     = Rejected (TypeError "fetch failed").
Proof.
  split; [| split].
  - destruct (createUserPost_cases None "7" "Title" "Body"
                (mockResolvedValue (ok_json (VObj [("id", VStr "p1")]))))
      as (_ & _ & Hok & _).
    apply (Hok (ok_json (VObj [("id", VStr "p1")]))); reflexivity.
  - destruct (createUserPost_cases None "7" "Title" "Body"
                (mockResolvedValue (not_ok 400 "Bad Request")))
      as (_ & _ & _ & Hnot & _).
    unfold outcome.
    rewrite (Hnot (not_ok 400 "Bad Request") "Bad Request"
               eq_refl eq_refl eq_refl).
    reflexivity.
  - destruct (createUserPost_cases None "7" "Title" "Body"
                (mockRejectedValue (TypeError "fetch failed")))
      as (_ & Hfail & _).
    unfold outcome.
    rewrite (Hfail (TypeError "fetch failed") eq_refl). reflexivity.
Defined.

(** X7.  [softDeletePost] sends one DELETE for
    [BASE_URL/api/v1/posts/{postId}], without headers or body.  It returns
    [true] after signalling ["/users/"] on an OK answer; on an answer that
    is not OK it rejects with [Error "Failed to delete post ({status})"]
    without reading the body or logging; a failed request is its own
    reason.  A post id is not validated: the empty one is sent too. *)
Theorem softDeletePost_cases :
  forall (env : option string) (postId : string) (w : World),
    let call := UserActions.softDeletePost env postId in
    let request :=
      Fetch (UserActions.BASE_URL env ++ "/api/v1/posts/" ++ postId)
        {| method := Some "DELETE"; headers := []; body := None;
           cache := None; next_revalidate := None |} in
    (forall e,
        replies w (effects call w) = [Rejected e] ->
        call w = ([request], Rejected e))
    /\ (forall res,
        answered call w res -> ok res = true ->
        call w = ([request; RevalidatePath "/users/"], Fulfilled true))
    /\ (forall res,
        answered call w res -> ok res = false ->
        call w
        = ([request],
           Rejected (Error ("Failed to delete post ("
                              ++ Number_toString (status res) ++ ")"))))
    /\ fetches (effects (UserActions.softDeletePost env EmptyString) w)
       = [(UserActions.BASE_URL env ++ "/api/v1/posts/",
           {| method := Some "DELETE"; headers := []; body := None;
              cache := None; next_revalidate := None |})].
Proof.
  intros env postId w call request. subst call request.
  unfold UserActions.softDeletePost.
  unfold answered, replies. unfold_action. cbn.
  repeat match goal with |- _ /\ _ => split end.
  1-3: destruct (w _ _) as [res0 | e0] eqn:Hw; cbn;
    [destruct (ok res0) eqn:Hok; cbn |];
    intros; use_hyps; subst; same_settled;
    try congruence; try reflexivity.
  destruct (w _ _) as [res0 | e0]; cbn; [destruct (ok res0) |]; reflexivity.
Qed.

Lemma softDeletePost_cases_witness :
  UserActions.softDeletePost None "p1" (mockResolvedValue (ok_json VNull))
  = ([Fetch "http://localhost:8080/api/v1/posts/p1"
        {| method := Some "DELETE"; headers := []; body := None;
           cache := None; next_revalidate := None |};
      RevalidatePath "/users/"], Fulfilled true)
  /\ outcome (UserActions.softDeletePost None "p1")
       (mockResolvedValue (not_ok 404 "Not Found"))
     = Rejected (Error "Failed to delete post (404)").
Proof.
  split.
  - destruct (softDeletePost_cases None "p1"
                (mockResolvedValue (ok_json VNull)))
      as (_ & Hok & _).
    apply (Hok (ok_json VNull)); reflexivity.
  - destruct (softDeletePost_cases None "p1"
                (mockResolvedValue (not_ok 404 "Not Found")))
      as (_ & _ & Hnot & _).
    unfold outcome.
    rewrite (Hnot (not_ok 404 "Not Found") eq_refl eq_refl).
    reflexivity.
Defined.



(** *** Creating a user *)

(** X9.  [addUserAction] never returns normally: in every world it ends in
    exactly one redirect, after the effects of [addUser].  The destination
    is [/users/add?success=true] when the backend answered OK and
    [/users/add?error=Failed%20to%20add%20user] when the request failed or
    the answer was not OK; the ["Unknown error"] fallback is never used. *)
Theorem addUserAction_always_redirects :
  forall (env : option string) (formData : FormData) (w : World),
    let inner := UserActions.addUser env formData in
    exists url,
      UserActions.addUserAction env formData w
      = ((effects inner w ++ [Redirect url])%list,
         Rejected (NextRedirect url))
      /\ (((exists res, answered inner w res /\ ok res = true)
           /\ url = "/users/add?success=true")
          \/ (failed inner w
              /\ url = "/users/add?error=Failed%20to%20add%20user")).
Proof.
  intros env formData w inner. subst inner.
  unfold UserActions.addUserAction, UserActions.addUser.
  unfold failed, request_failed, answered, replies.
  unfold_action. cbn.
  destruct (w _ _) as [res | e] eqn:Hw; cbn;
    [destruct (ok res) eqn:Hok; cbn |].
  - exists "/users/add?success=true". split; [reflexivity |].
    left. split; [exists res; rewrite Hw; split; [reflexivity | exact Hok]
                 | reflexivity].
  - exists "/users/add?error=Failed%20to%20add%20user".
    split; [reflexivity |].
    right. split; [| reflexivity].
    right. exists res. rewrite Hw. split; [reflexivity | exact Hok].
  - exists "/users/add?error=Failed%20to%20add%20user".
    split; [reflexivity |].
    right. split; [| reflexivity].
    left. exists e. rewrite Hw. reflexivity.
Qed.

(** X10.  The request of [addUser] depends on the form only through its
    entries named [username], [email], [name] and [roles]: an entry of any
    other name, wherever it stands in the form, changes nothing of what
    [addUser] does. *)
Theorem addUser_ignores_other_entries :
  forall (env : option string) (before after : FormData)
         (key text : string) (w : World),
    key <> "username" -> key <> "email" -> key <> "name" ->
    key <> "roles" ->
    UserActions.addUser env (before ++ (key, text) :: after)%list w
    = UserActions.addUser env (before ++ after)%list w.
Proof.
  intros env before after key text w Hu He Hn Hr.
  assert (Hget : forall name, key <> name ->
            FormData_get (before ++ (key, text) :: after)%list name
            = FormData_get (before ++ after)%list name).
  { intros name Hne. induction before as [| [k v] rest IH]; cbn.
    - apply String.eqb_neq in Hne. rewrite Hne. reflexivity.
    - rewrite IH. reflexivity. }
  assert (Hall : forall name, key <> name ->
            FormData_getAll (before ++ (key, text) :: after)%list name
            = FormData_getAll (before ++ after)%list name).
  { intros name Hne. unfold FormData_getAll.
    rewrite !filter_app. cbn [filter fst].
    apply String.eqb_neq in Hne. rewrite Hne. reflexivity. }
  unfold UserActions.addUser. cbv zeta.
  rewrite !Hget, Hall by assumption. reflexivity.
Qed.

Lemma addUser_ignores_other_entries_witness :
  UserActions.addUser None
    [("username", "pre"); ("csrf", "token"); ("roles", "ADMIN")]
    (mockResolvedValue (ok_json VNull))
  = UserActions.addUser None [("username", "pre"); ("roles", "ADMIN")]
      (mockResolvedValue (ok_json VNull)).
Proof.
  apply (addUser_ignores_other_entries None [("username", "pre")]
           [("roles", "ADMIN")] "csrf" "token");
    discriminate.
Defined.

(** *** All the actions together *)

(** X11.  No action retries or sends a second request: whatever the
    backend answers, every call sends exactly one request - except the two
    deletions of a user, which send none for the empty id. *)
Theorem one_request_per_call :
  forall (env : option string) (w : World),
    requests (UserActions.getAllUsers env) w = 1%nat
    /\ (forall sp, requests (UserActions.getUsers env sp) w = 1%nat)
    /\ (forall sp, requests (LibApi.getUsers env sp) w = 1%nat)
    /\ (forall id, requests (UserActions.getUserById env id) w = 1%nat)
    /\ (forall id, requests (UserActions.getUserPreferences env id) w = 1%nat)
    /\ (forall id, requests (UserActions.getUserPosts env id) w = 1%nat)
    /\ (forall fd, requests (UserActions.addUser env fd) w = 1%nat)
    /\ (forall fd, requests (UserActions.addUserAction env fd) w = 1%nat)
    /\ (forall id st,
        requests (UserActions.toggleUserStatus env id st) w = 1%nat)
    /\ (forall u t c,
        requests (UserActions.createUserPost env u t c) w = 1%nat)
    /\ (forall p, requests (UserActions.softDeletePost env p) w = 1%nat)
    /\ (forall u,
        requests (UserActions.createDefaultPreferences env u) w = 1%nat)
    /\ (forall id,
        requests (UserActions.deleteUser env id) w
        = if is_empty id then 0%nat else 1%nat)
    /\ (forall id,
        requests (UserActions.deleteUserFromHome env id) w
        = if is_empty id then 0%nat else 1%nat).
Proof.
  intros env w. unfold requests.
  repeat match goal with |- _ /\ _ => split end; intros;
    unfold UserActions.getAllUsers, UserActions.getUsers, LibApi.getUsers,
      UserActions.getUserById, UserActions.getUserPreferences,
      UserActions.getUserPosts, UserActions.addUserAction,
      UserActions.addUser, UserActions.toggleUserStatus,
      UserActions.createUserPost, UserActions.softDeletePost,
      UserActions.createDefaultPreferences, UserActions.deleteUser,
      UserActions.deleteUserFromHome;
    try match goal with id : string |- context [is_empty ?i] =>
          destruct i; [reflexivity |] end;
    unfold_action; cbn;
    repeat next_case;
    repeat match goal with
           | |- context [match ?d with VUndefined => _ | _ => _ end] =>
               destruct d; cbn
           | |- context [truthy ?v] => destruct (truthy v); cbn
           end;
    reflexivity.
Qed.

(** X12.  The reads are silent: [getAllUsers], both copies of [getUsers],
    [getUserById], [getUserPreferences] and [getUserPosts] never signal a
    cache invalidation and never redirect, whatever the backend answers. *)
Theorem reads_never_signal :
  forall (env : option string) (w : World),
    let silent (t : list event) := revalidated t = [] /\ redirects t = [] in
    silent (effects (UserActions.getAllUsers env) w)
    /\ (forall sp, silent (effects (UserActions.getUsers env sp) w))
    /\ (forall sp, silent (effects (LibApi.getUsers env sp) w))
    /\ (forall id, silent (effects (UserActions.getUserById env id) w))
    /\ (forall id, silent (effects (UserActions.getUserPreferences env id) w))
    /\ (forall id, silent (effects (UserActions.getUserPosts env id) w)).
Proof.
  intros env w silent. subst silent. cbv beta.
  repeat match goal with |- _ /\ _ => split end; intros;
    repeat match goal with |- _ /\ _ => split end;
    unfold UserActions.getAllUsers, UserActions.getUsers, LibApi.getUsers,
      UserActions.getUserById, UserActions.getUserPreferences,
      UserActions.getUserPosts;
    unfold_action; cbn;
    repeat next_case;
    repeat match goal with
           | |- context [match ?d with VUndefined => _ | _ => _ end] =>
               destruct d; cbn
           | |- context [truthy ?v] => destruct (truthy v); cbn
           end;
    reflexivity.
Qed.

(** X13.  Every request of every action goes to the configured backend:
    its URL is [BASE_URL] followed by a path under [/api/v1/].  [BASE_URL]
    is the environment variable when that is set and not empty, and
    [http://localhost:8080] otherwise, so it is never empty and no request
    is relative. *)
Theorem requests_go_to_BASE_URL :
  forall (env : option string) (w : World),
    UserActions.BASE_URL env <> EmptyString
    /\ (forall s,
        env = Some s -> s <> EmptyString -> UserActions.BASE_URL env = s)
    /\ (env = None \/ env = Some EmptyString ->
        UserActions.BASE_URL env = "http://localhost:8080")
    /\ under_api env (effects (UserActions.getAllUsers env) w)
    /\ (forall sp, under_api env (effects (UserActions.getUsers env sp) w))
    /\ (forall id, under_api env (effects (UserActions.getUserById env id) w))
    /\ (forall id,
        under_api env (effects (UserActions.getUserPreferences env id) w))
    /\ (forall id, under_api env (effects (UserActions.getUserPosts env id) w))
    /\ (forall fd, under_api env (effects (UserActions.addUser env fd) w))
    /\ (forall fd,
        under_api env (effects (UserActions.addUserAction env fd) w))
    /\ (forall id st,
        under_api env (effects (UserActions.toggleUserStatus env id st) w))
    /\ (forall id, under_api env (effects (UserActions.deleteUser env id) w))
    /\ (forall id,
        under_api env (effects (UserActions.deleteUserFromHome env id) w))
    /\ (forall u t c,
        under_api env (effects (UserActions.createUserPost env u t c) w))
    /\ (forall p, under_api env (effects (UserActions.softDeletePost env p) w))
    /\ (forall u,
        under_api env
          (effects (UserActions.createDefaultPreferences env u) w)).
Proof.
  intros env w.
  split; [| split; [| split]].
  - unfold UserActions.BASE_URL. destruct env as [[| c s] |]; discriminate.
  - intros s -> Hs. unfold UserActions.BASE_URL.
    destruct s; [contradiction | reflexivity].
  - intros [-> | ->]; reflexivity.
  - repeat match goal with |- _ /\ _ => split end; intros;
      unfold under_api;
      unfold UserActions.getAllUsers, UserActions.getUsers,
        UserActions.getUserById, UserActions.getUserPreferences,
        UserActions.getUserPosts, UserActions.addUserAction,
        UserActions.addUser, UserActions.toggleUserStatus,
        UserActions.createUserPost, UserActions.softDeletePost,
        UserActions.createDefaultPreferences, UserActions.deleteUser,
        UserActions.deleteUserFromHome;
      try match goal with id : string |- context [truthy (VStr ?i)] =>
            destruct i; [intros ? ? [] |] end;
      unfold_action; cbn;
      repeat next_case;
      repeat match goal with
             | |- context [match ?d with VUndefined => _ | _ => _ end] =>
                 destruct d; cbn
             | |- context [truthy ?v] => destruct (truthy v); cbn
             end;
      intros url init [Heq | []]; injection Heq as <- _;
      eexists; reflexivity.
Qed.

Lemma requests_go_to_BASE_URL_witness :
  UserActions.BASE_URL (Some "https://api.example.com")
  = "https://api.example.com"
  /\ UserActions.BASE_URL (Some EmptyString) = "http://localhost:8080"
  /\ exists rest,
      "https://api.example.com/api/v1/users/7/posts"
      = UserActions.BASE_URL (Some "https://api.example.com")
          ++ "/api/v1/" ++ rest.
Proof.
  destruct (requests_go_to_BASE_URL (Some "https://api.example.com")
              (mockResolvedValue (ok_json VNull)))
    as (_ & Hset & _ & _ & _ & _ & _ & Hposts & _).
  destruct (requests_go_to_BASE_URL (Some EmptyString)
              (mockResolvedValue (ok_json VNull)))
    as (_ & _ & Hdefault & _).
  split; [| split].
  - apply (Hset "https://api.example.com" eq_refl). discriminate.
  - apply Hdefault. right. reflexivity.
  - apply (Hposts "7" "https://api.example.com/api/v1/users/7/posts"
             {| method := None; headers := []; body := None;
                cache := Some "no-store"; next_revalidate := None |}).
    left. reflexivity.
Defined.

(** *** [getUsers] when it fails *)

(** X14.  [getUsers] returns a record only for an OK answer whose body is
    JSON and neither [null] nor [undefined].  On an answer that is not OK
    it logs status and status text and rejects with
    [Error "Failed to fetch users"]; a failed request and an unreadable
    body are their own reasons, and nothing is logged for them.  No
    default page is made up in place of a failure. *)
Theorem getUsers_failures :
  forall (env : option string) (searchParams : option SearchParams)
         (w : World),
    let call := UserActions.getUsers env searchParams in
    let request := getUsers_request env searchParams in
    (forall e,
        replies w (effects call w) = [Rejected e] ->
        call w = ([request], Rejected e))
    /\ (forall res,
        answered call w res -> ok res = false ->
        call w
        = ([request;
            ConsoleError [LStr "❌ Failed to fetch users:";
                          LNum (status res); LStr (statusText res)]],
           Rejected (Error "Failed to fetch users")))
    /\ (forall res e,
        answered call w res -> ok res = true -> json res = Rejected e ->
        call w = ([request], Rejected e))
    /\ (forall r,
        outcome call w = Fulfilled r ->
        exists res data,
          answered call w res /\ ok res = true
          /\ json res = Fulfilled data /\ nullish data = false).
Proof.
  intros env searchParams w call request. subst call request.
  unfold UserActions.getUsers, getUsers_request. cbv zeta.
  rewrite Number_toString_5.
  unfold answered, replies, effects, outcome.
  rewrite run_fetch_bind.
  destruct (w _ _) as [res0 | e0] eqn:Hw; cbn [fst snd].
  - destruct (ok res0) eqn:Hok; cbn [negb].
    + unfold_action. cbn.
      destruct (json res0) as [data | e1] eqn:Hjson; cbn.
      * destruct data; cbn;
          repeat match goal with |- _ /\ _ => split end;
          intros; use_hyps; subst; same_settled;
          try congruence; try discriminate;
          try (exists res0, (VBool b); rewrite Hw; auto; fail);
          try (exists res0, (VNum x); rewrite Hw; auto; fail);
          try (exists res0, (VStr s); rewrite Hw; auto; fail);
          try (exists res0, (VArr elems); rewrite Hw; auto; fail);
          try (exists res0, (VObj fields); rewrite Hw; auto; fail).
      * repeat match goal with |- _ /\ _ => split end;
          intros; use_hyps; subst; same_settled;
          try congruence; try reflexivity.
    + unfold_action. cbn.
      repeat match goal with |- _ /\ _ => split end;
        intros; use_hyps; subst; same_settled;
        try congruence; try reflexivity.
  - repeat match goal with |- _ /\ _ => split end;
      intros; cbn in *; use_hyps; subst; same_settled;
      try congruence; try reflexivity.
Qed.

Lemma getUsers_failures_witness :
  outcome (UserActions.getUsers None None)
    (mockResolvedValue (not_ok 503 "Service Unavailable"))
  = Rejected (Error "Failed to fetch users")
  /\ outcome (UserActions.getUsers None None)
       (mockRejectedValue (TypeError "fetch failed"))
     = Rejected (TypeError "fetch failed")
  /\ outcome (UserActions.getUsers None None)
       (mockResolvedValue ok_empty_body)
     = Rejected (SyntaxError "Unexpected end of JSON input").
Proof.
  split; [| split].
  - destruct (getUsers_failures None None
                (mockResolvedValue (not_ok 503 "Service Unavailable")))
      as (_ & Hnot & _).
    unfold outcome.
    rewrite (Hnot (not_ok 503 "Service Unavailable") eq_refl eq_refl).
    reflexivity.
  - destruct (getUsers_failures None None
                (mockRejectedValue (TypeError "fetch failed")))
      as (Hfail & _).
    unfold outcome.
    rewrite (Hfail (TypeError "fetch failed") eq_refl). reflexivity.
  - destruct (getUsers_failures None None
                (mockResolvedValue ok_empty_body))
      as (_ & _ & Hbody & _).
    unfold outcome.
    rewrite (Hbody ok_empty_body
               (SyntaxError "Unexpected end of JSON input")
               eq_refl eq_refl eq_refl).
    reflexivity.
Defined.

(** *** The record of [getUsers] *)

Lemma Fulfilled_inj {A} (a b : A) : Fulfilled a = Fulfilled b -> a = b.
Proof.
  intros H.
  exact (f_equal (fun p => match p with Fulfilled v => v | Rejected _ => a end)
           H).
Qed.

Lemma or_else_truthy :
  forall a b, truthy b = true -> truthy (or_else a b) = true.
Proof.
  intros a b Hb. unfold or_else. destruct (truthy a) eqn:Ha; assumption.
Qed.

Lemma coalesce_not_nullish :
  forall a b, nullish b = false -> nullish (coalesce a b) = false.
Proof.
  intros a b Hb. unfold coalesce. destruct (nullish a) eqn:Ha; assumption.
Qed.

(** X15.  Whatever the backend sends, a record that [getUsers] returns is
    filled in: [users] is truthy (the payload's [content], or the empty
    array in place of a falsy one), [totalPages], [isFirst], [isLast] and
    [pageNumber] are neither [null] nor [undefined], and [size] is 5.  The
    same holds of the copy in [lib/api.ts]. *)
Theorem getUsers_record_filled :
  forall (env : option string) (searchParams : option SearchParams)
         (w : World) (r : UsersPage),
    outcome (UserActions.getUsers env searchParams) w = Fulfilled r
    \/ outcome (LibApi.getUsers env searchParams) w = Fulfilled r ->
    filled r.
Proof.
  intros env searchParams w r H.
  unfold outcome, UserActions.getUsers, LibApi.getUsers in H. cbv zeta in H.
  rewrite !run_fetch_bind in H.
  destruct H as [H | H];
    (destruct (w _ _) as [res | e]; cbn [snd] in H;
     [| discriminate H]);
    (destruct (ok res); cbn [negb] in H; unfold_action; cbn in H;
     [| discriminate H]);
    (destruct (json res) as [data | e]; cbn in H; [| discriminate H]);
    (destruct data; cbn in H; try discriminate H);
    apply Fulfilled_inj in H; rewrite <- H; unfold filled;
    cbn [users totalPages isFirst isLast pageNumber size];
    repeat match goal with |- _ /\ _ => split end;
    try reflexivity;
    try (apply or_else_truthy; reflexivity);
    apply coalesce_not_nullish; reflexivity.
Qed.

Lemma getUsers_record_filled_witness :
  filled {| users := VArr []; totalPages := VNum 1; isFirst := VBool true;
            isLast := VBool true; pageNumber := VNum 0; size := VNum 5 |}.
Proof.
  apply (getUsers_record_filled None None
           (mockResolvedValue
              (ok_json (VObj [("content", VNull); ("number", VNull)])))).
  left. reflexivity.
Defined.

(** *** The actions written inline in the pages *)

Lemma FormData_text_get :
  forall formData name,
    FormData_get formData name
    = match Pages.FormData_text formData name with
      | Some s => VStr s
      | None => VNull
      end.
Proof.
  induction formData as [| [k v] rest IH]; intros name;
    cbn [FormData_get Pages.FormData_text]; [reflexivity |].
  destruct (String.eqb k name); [reflexivity | apply IH].
Qed.

(** X16.  The add-post form of the user page sends nothing and completes
    when the [title] or the [content] entry is missing or empty.  When
    both are there it does what [createUserPost] does with the first entry
    of each name: the same effects, completing when that returns and
    rejecting with its reason when that rejects. *)
Theorem UserPage_addPost_guard :
  forall (env : option string) (id : string) (formData : FormData)
         (w : World),
    let title := FormData_get formData "title" in
    let content := FormData_get formData "content" in
    (truthy title && truthy content = false ->
     Pages.UserPage_addPost env id formData w = ([], Fulfilled tt))
    /\ (forall t c,
        title = VStr t -> content = VStr c ->
        t <> EmptyString -> c <> EmptyString ->
        let post := UserActions.createUserPost env id t c in
        effects (Pages.UserPage_addPost env id formData) w = effects post w
        /\ (forall b,
            outcome post w = Fulfilled b ->
            outcome (Pages.UserPage_addPost env id formData) w
            = Fulfilled tt)
        /\ (forall e,
            outcome post w = Rejected e ->
            outcome (Pages.UserPage_addPost env id formData) w
            = Rejected e)).
Proof.
  intros env id formData w title content. subst title content.
  rewrite !FormData_text_get. unfold Pages.UserPage_addPost.
  destruct (Pages.FormData_text formData "title") as [t0 |];
    destruct (Pages.FormData_text formData "content") as [c0 |];
    (split; [intros Hfalsy | intros t c Ht Hc Hnt Hnc; cbv zeta]);
    try discriminate; try reflexivity.
  - rewrite Hfalsy. reflexivity.
  - apply (f_equal (fun v => match v with VStr s => s | _ => t end)) in Ht.
    apply (f_equal (fun v => match v with VStr s => s | _ => c end)) in Hc.
    subst t0 c0.
    replace (truthy (VStr t) && truthy (VStr c)) with true
      by (destruct t, c; try contradiction; reflexivity).
    unfold effects, outcome, bind, ret.
    destruct (UserActions.createUserPost env id t c w) as [tr [b | e]];
      cbn [fst snd];
      repeat match goal with |- _ /\ _ => split end; intros;
      rewrite ?app_nil_r; try reflexivity; congruence.
Qed.

Lemma UserPage_addPost_guard_witness :
  Pages.UserPage_addPost None "7" [("title", "Hello"); ("content", EmptyString)]
    (mockResolvedValue (ok_json VNull))
  = ([], Fulfilled tt)
  /\ outcome
       (Pages.UserPage_addPost None "7"
          [("title", "Hello"); ("content", "World")])
       (mockResolvedValue (ok_json VNull))
     = Fulfilled tt.
Proof.
  split.
  - destruct (UserPage_addPost_guard None "7"
                [("title", "Hello"); ("content", EmptyString)]
                (mockResolvedValue (ok_json VNull))) as (Hguard & _).
    apply Hguard. reflexivity.
  - destruct (UserPage_addPost_guard None "7"
                [("title", "Hello"); ("content", "World")]
                (mockResolvedValue (ok_json VNull))) as (_ & Hpost).
    destruct (Hpost "Hello" "World" eq_refl eq_refl) as (_ & Hdone & _);
      try discriminate.
    apply (Hdone true). reflexivity.
Defined.

(** A read on a value that is neither [null] nor [undefined] goes on
    with the field. *)
Lemma run_get_bind {A} (v : value) (k : string) (rest : value -> Action A)
      (w : World) :
  nullish v = false -> bind (get v k) rest w = rest (field v k) w.
Proof.
  intros Hv. unfold bind.
  replace (get v k w) with (@nil event, Fulfilled (field v k))
    by (destruct v; try discriminate Hv; reflexivity).
  destruct (rest (field v k) w) as [t r]. reflexivity.
Qed.

(** X17.  The status button of the user page, in both copies of the page,
    for the user object the page shows (a truthy one: the page answers
    [notFound] otherwise).  When its [status] is exactly ["ACTIVE"] the
    button asks for [INACTIVE]; for every other user object (status
    ["INACTIVE"], another text, no status at all) it asks for [ACTIVE].
    The two copies have the same effects, those of that one call of
    [toggleUserStatus]; the second copy hands on its result, the first
    completes when it returns and rejects with its reason. *)
Theorem UserPage_toggle_sends_opposite :
  forall (env : option string) (id : string) (user : value) (w : World),
    let sent :=
      if Pages.strict_eq_string (field user "status") "ACTIVE"
      then INACTIVE else ACTIVE in
    let toggle := UserActions.toggleUserStatus env id sent in
    truthy user = true ->
    effects (Pages.UserPage_toggle env id user) w = effects toggle w
    /\ Pages.UserPage_toggle_returning env id user w = toggle w
    /\ (forall v,
        outcome toggle w = Fulfilled v ->
        outcome (Pages.UserPage_toggle env id user) w = Fulfilled tt)
    /\ (forall e,
        outcome toggle w = Rejected e ->
        outcome (Pages.UserPage_toggle env id user) w = Rejected e).
Proof.
  intros env id user w sent toggle Htruthy. subst toggle sent.
  assert (Huser : nullish user = false)
    by (destruct user; try discriminate Htruthy; reflexivity).
  unfold Pages.UserPage_toggle, Pages.UserPage_toggle_returning.
  unfold effects, outcome. rewrite !run_get_bind by exact Huser.
  destruct (Pages.strict_eq_string (field user "status") "ACTIVE");
    unfold bind, ret;
    match goal with
    | |- context [UserActions.toggleUserStatus ?e ?i ?s w] =>
        destruct (UserActions.toggleUserStatus e i s w) as [tr [v | e0]]
    end;
    cbn [fst snd];
    repeat match goal with |- _ /\ _ => split end; intros;
    rewrite ?app_nil_r; try reflexivity; congruence.
Qed.

Lemma UserPage_toggle_sends_opposite_witness :
  effects
    (Pages.UserPage_toggle None "7" (VObj [("status", VStr "SUSPENDED")]))
    (mockResolvedValue (ok_json VNull))
  = effects (UserActions.toggleUserStatus None "7" ACTIVE)
      (mockResolvedValue (ok_json VNull))
  /\ Pages.UserPage_toggle_returning None "7"
       (VObj [("status", VStr "ACTIVE")])
       (mockResolvedValue (ok_json VNull))
     = UserActions.toggleUserStatus None "7" INACTIVE
         (mockResolvedValue (ok_json VNull)).
Proof.
  destruct (UserPage_toggle_sends_opposite None "7"
              (VObj [("status", VStr "SUSPENDED")])
              (mockResolvedValue (ok_json VNull)) eq_refl) as (Hother & _).
  destruct (UserPage_toggle_sends_opposite None "7"
              (VObj [("status", VStr "ACTIVE")])
              (mockResolvedValue (ok_json VNull)) eq_refl)
    as (_ & Hactive & _).
  split.
  - exact Hother.
  - exact Hactive.
Defined.

(** X18.  The form of the first [AddUserPage] awaits [addUser] and drops
    its result: the action has the effects of [addUser], always completes
    and never redirects, so a failed creation looks to the form like a
    successful one.  ([addUserAction], which the second [AddUserPage]
    uses, always redirects.) *)
Theorem AddUserPage_action_drops_result :
  forall (env : option string) (formData : FormData) (w : World),
    effects (Pages.AddUserPage_action env formData) w
    = effects (UserActions.addUser env formData) w
    /\ outcome (Pages.AddUserPage_action env formData) w = Fulfilled tt
    /\ redirects (effects (Pages.AddUserPage_action env formData) w) = [].
Proof.
  intros env formData w.
  unfold Pages.AddUserPage_action, UserActions.addUser.
  unfold_action. cbn.
  repeat next_case; repeat split; reflexivity.
Qed.

(** X19.  The delete button of the user page never completes: with the
    empty id it rejects with [Error "User ID required"] and sends nothing;
    otherwise it sends one request and ends either in the redirect to the
    first page of the listing, after an OK answer, or in the failure of
    [deleteUser].  The preferences button completes exactly when
    [createDefaultPreferences] returns, with the same effects. *)
Theorem UserPage_buttons :
  forall (env : option string) (id : string) (w : World),
    Pages.UserPage_delete env id w = UserActions.deleteUser env id w
    /\ (exists e, outcome (Pages.UserPage_delete env id) w = Rejected e)
    /\ (forall res,
        answered (Pages.UserPage_delete env id) w res -> ok res = true ->
        outcome (Pages.UserPage_delete env id) w
        = Rejected (NextRedirect "/users?page=0")
        /\ revalidated (effects (Pages.UserPage_delete env id) w)
           = ["/users"])
    /\ effects (Pages.UserPage_createPreferences env id) w
       = effects (UserActions.createDefaultPreferences env id) w
    /\ (forall res v,
        answered (Pages.UserPage_createPreferences env id) w res ->
        ok res = true -> json res = Fulfilled v ->
        outcome (Pages.UserPage_createPreferences env id) w = Fulfilled tt).
Proof.
  intros env id w.
  unfold Pages.UserPage_delete, Pages.UserPage_createPreferences,
    UserActions.deleteUser, UserActions.createDefaultPreferences.
  unfold answered, replies.
  destruct id as [| c id']; unfold_action; cbn;
    repeat next_case;
    repeat match goal with |- _ /\ _ => split end; intros;
    use_hyps; subst; same_settled;
    try discriminate; try congruence; try reflexivity;
    try (eexists; reflexivity).
Qed.

Lemma UserPage_buttons_witness :
  outcome (Pages.UserPage_delete None "7") (mockResolvedValue (ok_json VNull))
  = Rejected (NextRedirect "/users?page=0")
  /\ outcome (Pages.UserPage_createPreferences None "7")
       (mockResolvedValue (ok_json (VObj [("theme", VStr "light")])))
     = Fulfilled tt.
Proof.
  split.
  - destruct (UserPage_buttons None "7" (mockResolvedValue (ok_json VNull)))
      as (_ & _ & Hdel & _).
    apply (Hdel (ok_json VNull)); reflexivity.
  - destruct (UserPage_buttons None "7"
                (mockResolvedValue
                   (ok_json (VObj [("theme", VStr "light")]))))
      as (_ & _ & _ & _ & Hpref).
    apply (Hpref (ok_json (VObj [("theme", VStr "light")]))
             (VObj [("theme", VStr "light")])); reflexivity.
Defined.

(** *** A negative page index *)

Lemma trim_minus_digits :
  forall s, all_digits s = true -> trim (String "-" s) = String "-" s.
Proof.
  intros s H. unfold trim.
  assert (Hstart : trim_start (String "-" s) = String "-" s)
    by (destruct s as [| c2 [| c3 r]]; reflexivity).
  rewrite Hstart. cbn [String.length trim_end_fuel].
  unfold all_white_space. rewrite Hstart. cbn [is_empty].
  rewrite (trim_end_digits _ s H). reflexivity.
Qed.

(** [Number] of a minus sign and digits that denote [v > 0] is the Number
    value of [- v]. *)
Lemma StringToNumber_minus_digits :
  forall s,
    all_digits s = true -> 0 < digits_value 0 s ->
    StringToNumber (String "-" s) = of_Z (- digits_value 0 s).
Proof.
  intros s H Hpos. unfold StringToNumber.
  rewrite (trim_minus_digits s H). cbn [is_empty].
  destruct s as [| c r]; [cbn in Hpos; lia |].
  assert (Hc : is_digit c = true)
    by (cbn [all_digits] in H; apply andb_prop in H; tauto).
  change (radix_prefix (String "-" (String c r))) with (@None (Z * string)).
  change (read_sign (String "-" (String c r))) with (true, String c r).
  unfold read_unsigned_decimal.
  rewrite (prefix_Infinity_digit c r Hc), (read_digits_all _ 0 0 H).
  replace (0 + Z.of_nat (String.length (String c r)) =? 0) with false
    by (symmetry; apply Z.eqb_neq; cbn [String.length];
        rewrite Nat2Z.inj_succ; lia).
  cbn [andb read_exponent is_empty].
  unfold float_of_decimal, decimal_ratio, of_Z.
  change (0 - 0) with 0. change (0 <=? 0) with true.
  change (10 ^ 0) with 1. cbv iota beta. rewrite Z.mul_1_r.
  replace (- digits_value 0 (String c r) <? 0) with true
    by (symmetry; apply Z.ltb_lt; lia).
  rewrite Z.abs_neq, Z.opp_involutive by lia. reflexivity.
Qed.

(** A float of either sign with a valid mantissa is neither zero nor NaN. *)
Lemma truthy_valid_signed :
  forall sg p e,
    valid_binary (S754_finite sg p e) = true ->
    truthy_number (SF2Prim (S754_finite sg p e)) = true.
Proof.
  intros sg p e Hvalid. apply Prim2SF_SF2Prim in Hvalid.
  unfold truthy_number. unfold Prim2SF in Hvalid.
  destruct (is_nan _); [discriminate Hvalid |].
  destruct (is_zero _); [discriminate Hvalid |].
  reflexivity.
Qed.

Lemma of_Z_negative_truthy :
  forall n, n < 0 -> truthy_number (of_Z n) = true.
Proof.
  intros n Hn. unfold of_Z.
  replace (n <? 0) with true by (symmetry; apply Z.ltb_lt; lia).
  unfold nearest_float.
  replace (Z.abs n <=? 0) with false by (symmetry; apply Z.leb_gt; lia).
  pose proof (nearest_mantissa_integer (Z.abs n) ltac:(lia)) as [Hm He].
  destruct (nearest_mantissa (Z.abs n) 1) as [m e]. cbn [fst snd] in *.
  destruct (Z.ltb_spec 971 e) as [Hbig | Hfit]; [reflexivity |].
  destruct m as [| p | p]; try lia.
  apply truthy_valid_signed.
  change (valid_binary (S754_finite true p e))
    with (valid_binary (S754_finite false p e)).
  apply valid_53_bits; lia.
Qed.

(** X20.  The page index is not clamped from below.  Asked for page [-n],
    written as a minus sign and the decimal numeral of [n > 0], both copies
    of [getUsers] take [-n] as the page index and ask the backend for that
    page. *)
Theorem getUsers_negative_page_not_clamped :
  forall (env : option string) (n : Z) (w : World),
    0 < n ->
    let searchParams := Some {| page := Some (String "-" (decimal n)) |} in
    UserActions.currentPage searchParams = of_Z (- n)
    /\ LibApi.currentPage searchParams = of_Z (- n)
    /\ truthy_number (of_Z (- n)) = true
    /\ map fst (fetches (effects (UserActions.getUsers env searchParams) w))
       = [UserActions.BASE_URL env ++ "/api/v1/users?page="
            ++ Number_toString (of_Z (- n)) ++ "&size=5"]
    /\ map fst (fetches (effects (LibApi.getUsers env searchParams) w))
       = [LibApi.BASE_URL env ++ "/api/v1/users?page="
            ++ Number_toString (of_Z (- n)) ++ "&size=5"].
Proof.
  intros env n w Hn searchParams. subst searchParams.
  destruct (decimal_digits n ltac:(lia)) as (Hall & Hne & Hval).
  assert (Hnum : Number (Some (String "-" (decimal n))) = of_Z (- n))
    by (cbn [Number];
        rewrite (StringToNumber_minus_digits _ Hall) by (rewrite Hval; lia);
        rewrite Hval; reflexivity).
  assert (Htruthy : truthy_number (of_Z (- n)) = true)
    by (apply of_Z_negative_truthy; lia).
  assert (Hpage : UserActions.currentPage
                    (Some {| page := Some (String "-" (decimal n)) |})
                  = of_Z (- n))
    by (unfold UserActions.currentPage; cbn [page]; rewrite Hnum;
        unfold or_number; rewrite Htruthy; reflexivity).
  assert (Hlib : LibApi.currentPage
                   (Some {| page := Some (String "-" (decimal n)) |})
                 = of_Z (- n))
    by (unfold LibApi.currentPage; cbn [page]; exact Hnum).
  repeat match goal with |- _ /\ _ => split end;
    try assumption;
    unfold UserActions.getUsers, LibApi.getUsers; cbv zeta;
    rewrite ?Hpage, ?Hlib, Number_toString_5;
    unfold effects; rewrite run_fetch_bind;
    destruct (w _ _) as [res | e]; cbn [fst fetches flat_map map app];
    try reflexivity;
    destruct (ok res); unfold_action; cbn;
    repeat next_case;
    repeat match goal with
           | |- context [match ?d with VUndefined => _ | _ => _ end] =>
               destruct d; cbn
           end;
    reflexivity.
Qed.

Lemma getUsers_negative_page_not_clamped_witness :
  UserActions.currentPage (Some {| page := Some "-3" |}) = (-3)%float
  /\ map fst
       (fetches
          (effects (UserActions.getUsers None (Some {| page := Some "-3" |}))
             (mockResolvedValue (ok_json (VObj [])))))
     = ["http://localhost:8080/api/v1/users?page=-3&size=5"].
Proof.
  destruct (getUsers_negative_page_not_clamped None 3
              (mockResolvedValue (ok_json (VObj []))))
    as (Hpage & _ & _ & Hurl & _); [lia |].
  split.
  - exact Hpage.
  - exact Hurl.
Defined.
